(** * job-scraper: the ingestion orchestrator, its rate limiter and its
    deduplicator, embedded from the Go sources.

    Layout of the development:
    - [Strings], [Md5], [Float64], [errors]: the parts of Go's standard
      library the program calls ([strings], [crypto/md5], float64
      conversions, error values);
    - [models]: [internal/models/job.go];
    - [dedup]: the deduplicator;
    - [sources], [remoteok], [remotive]: the source manager and the two
      adapters;
    - [ratelimit]: the rate limiter;
    - [scraper]: the PowerScraper, with [ScrapeAllSources];
    - [examples]: concrete runs;
    - the properties, from the library models up to the cycle. *)

From Stdlib Require Import ZArith Floats Lia Bool Ascii String List.
From stdpp Require Import gmap strings list.

(** ** Go's [strings] package, on the byte level.

    A Go string is a sequence of bytes, which is what [string] is here.
    [ToLower], [TrimSpace] and [Fields] are given for ASCII text: bytes
    above 127 are neither case-mapped nor treated as white space. *)
Module Strings.

Definition isSpace (c : ascii) : bool :=
  let n := nat_of_ascii c in
  ((9 <=? n)%nat && (n <=? 13)%nat) || (n =? 32)%nat.

Definition lowerByte (c : ascii) : ascii :=
  let n := nat_of_ascii c in
  if ((65 <=? n)%nat && (n <=? 90)%nat) then ascii_of_nat (n + 32) else c.

Definition upperByte (c : ascii) : ascii :=
  let n := nat_of_ascii c in
  if ((97 <=? n)%nat && (n <=? 122)%nat) then ascii_of_nat (n - 32) else c.

Fixpoint ToLower (s : string) : string :=
  match s with
  | EmptyString => EmptyString
  | String c r => String (lowerByte c) (ToLower r)
  end.

Fixpoint ToUpper (s : string) : string :=
  match s with
  | EmptyString => EmptyString
  | String c r => String (upperByte c) (ToUpper r)
  end.

Fixpoint trimLeft (s : string) : string :=
  match s with
  | String c r => if isSpace c then trimLeft r else s
  | EmptyString => EmptyString
  end.

(** Drops the white space at the end: a byte is kept when it is not a
    space or when something is kept after it. *)
Fixpoint trimRight (s : string) : string :=
  match s with
  | EmptyString => EmptyString
  | String c r =>
      match trimRight r with
      | EmptyString => if isSpace c then EmptyString else String c EmptyString
      | r' => String c r'
      end
  end.

Definition TrimSpace (s : string) : string := trimRight (trimLeft s).

(** [fieldsAux cur s]: [cur] is the word being read, in reverse. *)
Fixpoint fieldsAux (cur : list ascii) (s : string) : list string :=
  let flush := match cur with
               | [] => []
               | _ => [string_of_list_ascii (rev cur)]
               end in
  match s with
  | EmptyString => flush
  | String c r =>
      if isSpace c then flush ++ fieldsAux [] r else fieldsAux (c :: cur) r
  end.

Definition Fields (s : string) : list string := fieldsAux [] s.

Fixpoint Join (elems : list string) (sep : string) : string :=
  match elems with
  | [] => EmptyString
  | [e] => e
  | e :: rest => (e ++ sep ++ Join rest sep)%string
  end.

Fixpoint hasPrefix (p s : string) : bool :=
  match p, s with
  | EmptyString, _ => true
  | String a p', String b s' => if Ascii.eqb a b then hasPrefix p' s' else false
  | String _ _, EmptyString => false
  end.

Fixpoint Contains (s substr : string) : bool :=
  hasPrefix substr s ||
  match s with
  | EmptyString => false
  | String _ r => Contains r substr
  end.

(** [ReplaceAll s old new] for a one-byte [old]. *)
Fixpoint ReplaceAll (s : string) (old : ascii) (new : string) : string :=
  match s with
  | EmptyString => EmptyString
  | String c r =>
      if Ascii.eqb c old then (new ++ ReplaceAll r old new)%string
      else String c (ReplaceAll r old new)
  end.

End Strings.

(** ** [crypto/md5]: RFC 1321 on 32-bit words held in [Z]. *)
Module Md5.
Local Open Scope Z_scope.

Definition w32 (x : Z) : Z := x mod 2 ^ 32.
Definition not32 (x : Z) : Z := Z.lxor x 0xffffffff.
Definition rotl32 (x c : Z) : Z :=
  w32 (Z.lor (Z.shiftl x c) (Z.shiftr x (32 - c))).

Definition K : list Z :=
  [ 0xd76aa478; 0xe8c7b756; 0x242070db; 0xc1bdceee;
    0xf57c0faf; 0x4787c62a; 0xa8304613; 0xfd469501;
    0x698098d8; 0x8b44f7af; 0xffff5bb1; 0x895cd7be;
    0x6b901122; 0xfd987193; 0xa679438e; 0x49b40821;
    0xf61e2562; 0xc040b340; 0x265e5a51; 0xe9b6c7aa;
    0xd62f105d; 0x02441453; 0xd8a1e681; 0xe7d3fbc8;
    0x21e1cde6; 0xc33707d6; 0xf4d50d87; 0x455a14ed;
    0xa9e3e905; 0xfcefa3f8; 0x676f02d9; 0x8d2a4c8a;
    0xfffa3942; 0x8771f681; 0x6d9d6122; 0xfde5380c;
    0xa4beea44; 0x4bdecfa9; 0xf6bb4b60; 0xbebfbc70;
    0x289b7ec6; 0xeaa127fa; 0xd4ef3085; 0x04881d05;
    0xd9d4d039; 0xe6db99e5; 0x1fa27cf8; 0xc4ac5665;
    0xf4292244; 0x432aff97; 0xab9423a7; 0xfc93a039;
    0x655b59c3; 0x8f0ccc92; 0xffeff47d; 0x85845dd1;
    0x6fa87e4f; 0xfe2ce6e0; 0xa3014314; 0x4e0811a1;
    0xf7537e82; 0xbd3af235; 0x2ad7d2bb; 0xeb86d391 ].

Definition S : list Z :=
  [ 7; 12; 17; 22; 7; 12; 17; 22; 7; 12; 17; 22; 7; 12; 17; 22;
    5;  9; 14; 20; 5;  9; 14; 20; 5;  9; 14; 20; 5;  9; 14; 20;
    4; 11; 16; 23; 4; 11; 16; 23; 4; 11; 16; 23; 4; 11; 16; 23;
    6; 10; 15; 21; 6; 10; 15; 21; 6; 10; 15; 21; 6; 10; 15; 21 ].

Definition nthZ (l : list Z) (i : Z) : Z := nth (Z.to_nat i) l 0.

(** The padded message: 0x80, zeros up to 56 mod 64, the bit length on
    eight little-endian bytes. *)
Definition leBytes (n : nat) (x : Z) : list Z :=
  map (fun i => Z.shiftr x (8 * Z.of_nat i) mod 256) (seq 0 n).

Definition pad (msg : list Z) : list Z :=
  let len := Z.of_nat (length msg) in
  let zeros := Z.to_nat ((55 - len) mod 64) in
  msg ++ [0x80] ++ repeat 0 zeros ++ leBytes 8 ((8 * len) mod 2 ^ 64).

Fixpoint leWords (bs : list Z) : list Z :=
  match bs with
  | b0 :: b1 :: b2 :: b3 :: r =>
      (b0 + Z.shiftl b1 8 + Z.shiftl b2 16 + Z.shiftl b3 24) :: leWords r
  | _ => []
  end.

Fixpoint chunks (fuel : nat) (ws : list Z) : list (list Z) :=
  match fuel, ws with
  | O, _ | _, [] => []
  | Datatypes.S fuel', _ => firstn 16 ws :: chunks fuel' (skipn 16 ws)
  end.

Definition state : Type := (Z * Z * Z * Z)%type.

Definition round (M : list Z) (st : state) (i : Z) : state :=
  let '(A, B, C, D) := st in
  let '(F, g) :=
    if i <? 16 then (Z.lor (Z.land B C) (Z.land (not32 B) D), i)
    else if i <? 32 then (Z.lor (Z.land D B) (Z.land (not32 D) C), (5 * i + 1) mod 16)
    else if i <? 48 then (Z.lxor (Z.lxor B C) D, (3 * i + 5) mod 16)
    else (Z.lxor C (Z.lor B (not32 D)), (7 * i) mod 16) in
  let F' := w32 (F + A + nthZ K i + nthZ M g) in
  (D, w32 (B + rotl32 F' (nthZ S i)), B, C).

Definition block (st : state) (M : list Z) : state :=
  let '(a0, b0, c0, d0) := st in
  let '(A, B, C, D) := fold_left (round M) (map Z.of_nat (seq 0 64)) st in
  (w32 (a0 + A), w32 (b0 + B), w32 (c0 + C), w32 (d0 + D)).

Definition init : state := (0x67452301, 0xefcdab89, 0x98badcfe, 0x10325476).

(** [md5.Sum]: the sixteen bytes of the digest. *)
Definition Sum (data : list Z) : list Z :=
  let ws := leWords (pad data) in
  let '(a, b, c, d) := fold_left block (chunks (length ws) ws) init in
  leBytes 4 a ++ leBytes 4 b ++ leBytes 4 c ++ leBytes 4 d.

Definition hexDigit (n : Z) : ascii :=
  ascii_of_nat (Z.to_nat (if n <? 10 then 48 + n else 87 + n)).

(** [fmt.Sprintf("%x", hash)] on a byte array. *)
Fixpoint hex (bs : list Z) : string :=
  match bs with
  | [] => EmptyString
  | b :: r => String (hexDigit (b / 16)) (String (hexDigit (b mod 16)) (hex r))
  end.

Definition bytesOf (s : string) : list Z :=
  map (fun c => Z.of_nat (nat_of_ascii c)) (list_ascii_of_string s).

End Md5.

(** ** float64 and its conversions.

    Go's float64 is IEEE 754 binary64, which is what the primitive [float]
    is. [of_int] is the conversion [float64(n)] (round to nearest even);
    [to_int64] is the conversion [int64(f)], which truncates toward zero.
    Go leaves the result open when the value does not fit; [to_int64]
    gives what amd64 gives there, the smallest int64. *)
Module Float64.
Local Open Scope Z_scope.

Definition of_int (n : Z) : float :=
  SF2Prim (binary_normalize prec emax n 0 false).

Definition minInt64 : Z := - 2 ^ 63.

Definition to_int64 (f : float) : Z :=
  match Prim2SF f with
  | S754_zero _ => 0
  | S754_finite s m e =>
      let mag := if 0 <=? e then Z.pos m * 2 ^ e else Z.pos m / 2 ^ (- e) in
      let v := if s then - mag else mag in
      if (minInt64 <=? v) && (v <? 2 ^ 63) then v else minInt64
  | S754_infinity _ | S754_nan => minInt64
  end.

End Float64.

(** int64 arithmetic: the value of a sum after wrap-around. *)
Definition wrap64 (z : Z) : Z := ((z + 2 ^ 63) mod 2 ^ 64 - 2 ^ 63)%Z.

(** ** internal/models/job.go *)
Module models.

(** [time.Time] as nanoseconds since the epoch; a nil [*time.Time] is
    [None]. *)
Definition Time : Type := Z.

Record Job : Type := mkJob {
  ID : Z;
  Title : string;
  Company : string;
  Location : string;
  URL : string;
  Description : string;
  Salary : string;
  PostedDate : option Time;
  Source : string;
  JobCategory : string;
  JobType : string;
  ScrapedAt : Time
}.

Definition JobTypeFullTime : string := "full-time".
Definition JobTypePartTime : string := "part-time".
Definition JobTypeContract : string := "contract".
Definition JobTypeFreelance : string := "freelance".

End models.

(** ** The deduplicator (package scraper). *)
Module dedup.
Import models.

(** [seenJobs] is a [map[string]bool]; the mutex is not modelled, the
    deduplicator is only used from the collecting goroutine. *)
Record Deduplicator : Type := mkDeduplicator {
  seenJobs : gmap string bool
}.

Definition NewDeduplicator : Deduplicator := {| seenJobs := ∅ |}.

(** The three normalised fields a job is compared on. *)
Definition normalized (job : Job) : string * string * string :=
  (Strings.ToLower (Strings.TrimSpace (Title job)),
   Strings.ToLower (Strings.TrimSpace (Company job)),
   Strings.ToLower (Strings.TrimSpace (Location job))).

Definition generateJobHash (job : Job) : string :=
  let title := Strings.ToLower (Strings.TrimSpace (Title job)) in
  let company := Strings.ToLower (Strings.TrimSpace (Company job)) in
  let location := Strings.ToLower (Strings.TrimSpace (Location job)) in
  let key := (title ++ "|" ++ company ++ "|" ++ location)%string in
  let hash := Md5.Sum (Md5.bytesOf key) in
  Md5.hex hash.

(** [d.seenJobs[hash]]: reading a key that is absent gives [false]. *)
Definition seen (d : Deduplicator) (hash : string) : bool :=
  default false (seenJobs d !! hash).

Definition markSeen (d : Deduplicator) (hash : string) : Deduplicator :=
  {| seenJobs := <[hash := true]> (seenJobs d) |}.

(** The loop of [RemoveDuplicates]; the result is the deduplicator after
    the call and the slice [uniqueJobs]. *)
Fixpoint RemoveDuplicates (d : Deduplicator) (jobs : list Job)
  : Deduplicator * list Job :=
  match jobs with
  | [] => (d, [])
  | job :: rest =>
      let hash := generateJobHash job in
      if negb (seen d hash) then
        let '(d', uniqueJobs) := RemoveDuplicates (markSeen d hash) rest in
        (d', job :: uniqueJobs)
      else RemoveDuplicates d rest
  end.

Definition IsDuplicate (d : Deduplicator) (job : Job) : bool :=
  let hash := generateJobHash job in
  seen d hash.

Definition Reset (d : Deduplicator) : Deduplicator := {| seenJobs := ∅ |}.

Definition GetSeenCount (d : Deduplicator) : nat := size (seenJobs d).

(** One step of the loop over [set2] in [stringSimilarity]. *)
Definition jaccardStep (set1 : gset string) (word : string) (acc : Z * Z) : Z * Z :=
  let '(intersection, union) := acc in
  if decide (word ∈ set1) then ((intersection + 1)%Z, union)
  else (intersection, (union + 1)%Z).

(** [set1] and [set2] are maps to [true] only, that is, sets; the loop
    over [set2] visits each word once. *)
Definition stringSimilarity (s1 s2 : string) : float :=
  if String.eqb s1 s2 then 1%float
  else if String.eqb s1 "" || String.eqb s2 "" then 0%float
  else
    let words1 := Strings.Fields (Strings.ToLower s1) in
    let words2 := Strings.Fields (Strings.ToLower s2) in
    if (length words1 =? 0)%nat || (length words2 =? 0)%nat then 0%float
    else
      let set1 : gset string := list_to_set words1 in
      let set2 : gset string := list_to_set words2 in
      let '(intersection, union) :=
        set_fold (jaccardStep set1) (0%Z, Z.of_nat (size set1)) set2 in
      if (union =? 0)%Z then 0%float
      else (Float64.of_int intersection / Float64.of_int union)%float.

(** The weights 0.3 and 0.2 as the binary64 values nearest to them. *)
Definition w_company : float := 0x1.3333333333333p-2%float.
Definition w_location : float := 0x1.999999999999ap-3%float.

Definition calculateSimilarity (job1 job2 : Job) : float :=
  let titleSim := stringSimilarity (Title job1) (Title job2) in
  let companySim := stringSimilarity (Company job1) (Company job2) in
  let locationSim := stringSimilarity (Location job1) (Location job2) in
  (titleSim * 0.5 + companySim * w_company + locationSim * w_location)%float.

(** [FindSimilarJobs]: the pairs [(i, j)], [i < j], whose similarity is
    in [[threshold, 1)]. *)
Record JobSimilarity : Type := mkJobSimilarity {
  Job1 : Job;
  Job2 : Job;
  Similarity : float
}.

Fixpoint FindSimilarJobs (jobs : list Job) (threshold : float) : list JobSimilarity :=
  match jobs with
  | [] => []
  | ji :: rest =>
      flat_map (fun jj =>
        let similarity := calculateSimilarity ji jj in
        if PrimFloat.leb threshold similarity && PrimFloat.ltb similarity 1
        then [ {| Job1 := ji; Job2 := jj; Similarity := similarity |} ]
        else []) rest
      ++ FindSimilarJobs rest threshold
  end.

(** Batches fed one after the other to the same deduplicator, as the
    collecting loop of the orchestrator does; the kept records of all
    batches are returned in order. *)
Fixpoint RemoveDuplicatesSeq (d : Deduplicator) (batches : list (list Job))
  : Deduplicator * list Job :=
  match batches with
  | [] => (d, [])
  | b :: bs =>
      let '(d1, u) := RemoveDuplicates d b in
      let '(d2, us) := RemoveDuplicatesSeq d1 bs in
      (d2, u ++ us)
  end.

(** The records of [l] with digest [h], and the first of them. *)
Definition hasKey (h : string) (j : Job) : bool := String.eqb (generateJobHash j) h.
Definition withKey (h : string) (l : list Job) : list Job := List.filter (hasKey h) l.
Definition firstWithKey (h : string) (l : list Job) : option Job := List.find (hasKey h) l.

End dedup.

(** ** Go's [error] values, as far as the program builds them. *)
Module errors.

(** [Errorf msg] is [fmt.Errorf] with the format [msg]; [Wrapf msg cause]
    is [fmt.Errorf] with a [%w] verb for [cause]; [Canceled] and
    [DeadlineExceeded] are the two values of [ctx.Err()]; [External] is an
    error made outside the program (network, JSON, storage). *)
Inductive error : Type :=
| External (msg : string)
| Canceled
| DeadlineExceeded
| Errorf (msg : string)
| Wrapf (msg : string) (cause : error).

End errors.

(** ** internal/scraper/sources/sources.go *)
Module sources.
Import models errors.
Local Open Scope Z_scope.

(** The methods of [JobSource] that only read the adapter; [FetchJobs]
    talks to the network and is given with each adapter below. *)
Record JobSource : Type := mkJobSource {
  GetName : string;
  GetRateLimit : Z;
  SupportsSearch : bool;
  GetBaseURL : string
}.

Record JobSourceConfig : Type := mkJobSourceConfig {
  Enabled : bool;
  RateLimit : Z;
  SearchTerms : list string;
  Locations : list string;
  JobTypes : list string
}.

(** The zero value, which a map read gives for a missing key. *)
Definition zeroConfig : JobSourceConfig :=
  {| Enabled := false; RateLimit := 0; SearchTerms := []; Locations := []; JobTypes := [] |}.

Record SourceManager : Type := mkSourceManager {
  sources : gmap string JobSource;
  configs : gmap string JobSourceConfig
}.

Definition NewSourceManager : SourceManager :=
  {| sources := ∅; configs := ∅ |}.

Definition RegisterSource (sm : SourceManager) (source : JobSource)
  (config : JobSourceConfig) : SourceManager :=
  {| sources := <[GetName source := source]> (sources sm);
     configs := <[GetName source := config]> (configs sm) |}.

Definition GetSources (sm : SourceManager) : gmap string JobSource := sources sm.

Definition GetEnabledSources (sm : SourceManager) : gmap string JobSource :=
  map_imap (fun name source =>
    match configs sm !! name with
    | Some config => if Enabled config then Some source else None
    | None => None
    end) (sources sm).

Definition GetSourceConfig (sm : SourceManager) (name : string)
  : JobSourceConfig * bool :=
  match configs sm !! name with
  | Some config => (config, true)
  | None => (zeroConfig, false)
  end.

(** What the HTTP request and the JSON decoding of an adapter end in. *)
Inductive fetched (A : Type) : Type :=
| GetFailed (err : error)
| BadStatus (code : Z)
| ReadFailed (err : error)
| ParseFailed (err : error)
| Parsed (payload : A).
Arguments GetFailed {A}.
Arguments BadStatus {A}.
Arguments ReadFailed {A}.
Arguments ParseFailed {A}.
Arguments Parsed {A}.

Fixpoint assoc (k : string) (m : list (string * string)) : option string :=
  match m with
  | [] => None
  | (k', v) :: r => if String.eqb k k' then Some v else assoc k r
  end.

(** [for _, tag := range tags { if v, ok := m[ToLower(tag)]; ok { return v } }] *)
Fixpoint firstMapped (m : list (string * string)) (tags : list string) : option string :=
  match tags with
  | [] => None
  | tag :: r =>
      match assoc (Strings.ToLower tag) m with
      | Some v => Some v
      | None => firstMapped m r
      end
  end.

End sources.

(** ** internal/scraper/sources/remoteok.go *)
Module remoteok.
Import models errors sources.
Local Open Scope Z_scope.

Definition this : JobSource :=
  {| GetName := "RemoteOK"; GetRateLimit := 60; SupportsSearch := true;
     GetBaseURL := "https://remoteok.com/api" |}.

Record RemoteOKJob : Type := mkRemoteOKJob {
  ID : string;
  Slug : string;
  Company : string;
  CompanyLogo : string;
  Position : string;
  Tags : list string;
  Description : string;
  Location : string;
  Original : bool;
  URL : string;
  ApplyURL : string;
  Date : Time
}.

Definition categoryMap : list (string * string) :=
  [ ("backend", "Backend Development"); ("frontend", "Frontend Development");
    ("fullstack", "Full Stack Development"); ("full-stack", "Full Stack Development");
    ("devops", "DevOps"); ("data", "Data Science"); ("ml", "Machine Learning");
    ("ai", "Artificial Intelligence"); ("mobile", "Mobile Development");
    ("ios", "Mobile Development"); ("android", "Mobile Development");
    ("design", "Design"); ("marketing", "Marketing"); ("sales", "Sales") ].

Definition techMap : list (string * string) :=
  [ ("golang", "Backend Development"); ("go", "Backend Development");
    ("python", "Backend Development"); ("java", "Backend Development");
    ("javascript", "Frontend Development"); ("react", "Frontend Development");
    ("vue", "Frontend Development"); ("angular", "Frontend Development") ].

Definition getJobCategory (tags : list string) : string :=
  match firstMapped categoryMap tags with
  | Some category => category
  | None =>
      match firstMapped techMap tags with
      | Some category => category
      | None => "Technology"
      end
  end.

Definition jobTypeMap : list (string * string) :=
  [ ("full-time", JobTypeFullTime); ("fulltime", JobTypeFullTime);
    ("permanent", JobTypeFullTime);
    ("part-time", JobTypePartTime); ("parttime", JobTypePartTime);
    ("contract", JobTypeContract); ("contractor", JobTypeContract);
    ("freelance", JobTypeContract);
    ("internship", "internship"); ("intern", "internship") ].

Definition getJobType (tags : list string) : string :=
  match firstMapped jobTypeMap tags with
  | Some t => t
  | None => JobTypeFullTime
  end.

(** The body of the loop of [FetchJobs] for one decoded item; [None] for
    the metadata element, which is skipped. *)
Definition convert (remoteJob : RemoteOKJob) : option Job :=
  if String.eqb (ID remoteJob) "" then None
  else
    let jobType := getJobType (Tags remoteJob) in
    let job :=
      {| models.ID := 0;
         models.Title := Position remoteJob;
         models.Company := Company remoteJob;
         models.Location := Location remoteJob;
         models.URL := URL remoteJob;
         models.Description := Description remoteJob;
         models.Salary := "";
         models.PostedDate := Some (Date remoteJob);
         models.Source := GetName this;
         models.JobCategory := getJobCategory (Tags remoteJob);
         models.JobType := jobType;
         models.ScrapedAt := 0 |} in
    Some (if String.eqb (models.URL job) ""
          then {| models.ID := models.ID job;
                  models.Title := models.Title job;
                  models.Company := models.Company job;
                  models.Location := models.Location job;
                  models.URL := ("https://remoteok.com/remote-jobs/" ++ Slug remoteJob)%string;
                  models.Description := models.Description job;
                  models.Salary := models.Salary job;
                  models.PostedDate := models.PostedDate job;
                  models.Source := models.Source job;
                  models.JobCategory := models.JobCategory job;
                  models.JobType := models.JobType job;
                  models.ScrapedAt := models.ScrapedAt job |}
          else job).

Definition FetchJobs (response : fetched (list RemoteOKJob)) : list Job * option error :=
  match response with
  | GetFailed err => ([], Some (Wrapf "failed to fetch from RemoteOK: %w" err))
  | BadStatus code => ([], Some (Errorf "RemoteOK API returned status %d"))
  | ReadFailed err => ([], Some (Wrapf "failed to read response body: %w" err))
  | ParseFailed err => ([], Some (Wrapf "failed to parse RemoteOK response: %w" err))
  | Parsed remoteOKJobs => (omap convert remoteOKJobs, None)
  end.

End remoteok.

(** ** internal/scraper/sources/remotive.go *)
Module remotive.
Import models errors sources.
Local Open Scope Z_scope.

Definition this : JobSource :=
  {| GetName := "Remotive"; GetRateLimit := 100; SupportsSearch := true;
     GetBaseURL := "https://remotive.com/api/remote-jobs" |}.

Record RemotiveJob : Type := mkRemotiveJob {
  ID : Z;
  URL : string;
  Title : string;
  CompanyName : string;
  CompanyLogo : string;
  Category : string;
  JobType : string;
  PublicationDate : string;
  CandidateRequiredLocation : string;
  Salary : string;
  Description : string
}.

Definition capitalize (word : string) : string :=
  match word with
  | EmptyString => EmptyString
  | String c r => String (Strings.upperByte c) (Strings.ToLower r)
  end.

Definition containsAny (s : string) (subs : list string) : bool :=
  existsb (Strings.Contains s) subs.

Definition getJobCategory (category title : string) : string :=
  if negb (String.eqb category "") then
    let formatted := Strings.ReplaceAll category "-"%char " " in
    let words := map capitalize (Strings.Fields formatted) in
    Strings.Join words " "
  else
    let title := Strings.ToLower title in
    if containsAny title ["frontend"; "react"; "vue"; "angular"] then "Frontend Development"
    else if containsAny title ["backend"; "golang"; "go"; "python"] then "Backend Development"
    else if containsAny title ["fullstack"; "full-stack"; "full stack"] then "Full Stack Development"
    else if containsAny title ["devops"; "sre"] then "DevOps"
    else if containsAny title ["data"; "analyst"] then "Data Science"
    else if containsAny title ["mobile"; "ios"; "android"] then "Mobile Development"
    else if containsAny title ["design"; "ux"; "ui"] then "Design"
    else "Technology".

Definition getJobType (jobType : string) : string :=
  let jobTypeLower := Strings.ToLower jobType in
  if containsAny jobTypeLower ["full_time"; "full-time"] then JobTypeFullTime
  else if containsAny jobTypeLower ["part_time"; "part-time"] then JobTypePartTime
  else if Strings.Contains jobTypeLower "contract" then JobTypeContract
  else if Strings.Contains jobTypeLower "freelance" then JobTypeFreelance
  else JobTypeFullTime.

Definition formats : list string :=
  [ "2006-01-02"; "2006-01-02T15:04:05Z"; "2006-01-02T15:04:05-07:00";
    "2006-01-02 15:04:05" ].

Section WithClock.

(** [time.Parse layout value] and [time.Now()]. *)
Variable timeParse : string -> string -> option Time.
Variable timeNow : Time.

Fixpoint parseFirst (layouts : list string) (value : string) : option Time :=
  match layouts with
  | [] => None
  | format :: r =>
      match timeParse format value with
      | Some parsed => Some parsed
      | None => parseFirst r value
      end
  end.

(** The body of the loop of [FetchJobs] for one decoded item. *)
Definition convert (remotiveJob : RemotiveJob) : Job :=
  let location :=
    if String.eqb (CandidateRequiredLocation remotiveJob) "" then "Remote"
    else CandidateRequiredLocation remotiveJob in
  let postedDate :=
    if negb (String.eqb (PublicationDate remotiveJob) "") then
      match parseFirst formats (PublicationDate remotiveJob) with
      | Some parsed => Some parsed
      | None => Some timeNow
      end
    else None in
  let jobType := getJobType (JobType remotiveJob) in
  let description :=
    if String.eqb (Description remotiveJob) "" then " " else Description remotiveJob in
  let salary :=
    if String.eqb (Salary remotiveJob) "" then " " else Salary remotiveJob in
  let jobCategory :=
    let c := getJobCategory (Category remotiveJob) (Title remotiveJob) in
    if String.eqb c "" then " " else c in
  {| models.ID := 0;
     models.Title := Title remotiveJob;
     models.Company := CompanyName remotiveJob;
     models.Location := location;
     models.URL := URL remotiveJob;
     models.Description := description;
     models.Salary := salary;
     models.PostedDate := postedDate;
     models.Source := GetName this;
     models.JobCategory := jobCategory;
     models.JobType := jobType;
     models.ScrapedAt := 0 |}.

Definition FetchJobs (response : fetched (list RemotiveJob)) : list Job * option error :=
  match response with
  | GetFailed err => ([], Some (Wrapf "failed to fetch from Remotive: %w" err))
  | BadStatus code => ([], Some (Errorf "Remotive API returned status %d"))
  | ReadFailed err => ([], Some (Wrapf "failed to read response body: %w" err))
  | ParseFailed err => ([], Some (Wrapf "failed to parse Remotive response: %w" err))
  | Parsed jobs => (map convert jobs, None)
  end.

End WithClock.

End remotive.

(** ** The rate limiter (package scraper).

    A [sourceLimiter] owns a buffered channel of tokens and a ticker. The
    channel only carries [struct{}] values, so its content is the number of
    tokens in it. The limiter is run here as a machine: time passes, the
    ticker delivers a tick to [startRefill], or a [Wait] receives a token.
    The clock is in nanoseconds. *)
Module ratelimit.
Local Open Scope Z_scope.

(** [time.Minute] *)
Definition Minute : Z := 60000000000.

(** [refill] is the ticker: its period, the time it was made, how many
    ticks [startRefill] has received, and whether [Stop] was called. *)
Record Ticker : Type := mkTicker {
  period : Z;
  started : Z;
  delivered : Z;
  stopped : bool
}.

Record sourceLimiter : Type := mkSourceLimiter {
  tokens : Z;          (* len(tokens); cap(tokens) is [limit] *)
  refill : Ticker;
  limit : Z;
  duration : Z;
  clock : Z            (* the current time *)
}.

(** The creation in [getLimiter], at time [now]. [make] panics on a
    negative capacity, the division panics on zero, and [time.NewTicker]
    panics on a period that is not positive: [None]. *)
Definition newLimiter (now : Z) (requestsPerMinute : Z) : option sourceLimiter :=
  if requestsPerMinute <=? 0 then None
  else
    let duration := Minute in
    (* for i := 0; i < requestsPerMinute; i++ { tokens <- struct{}{} } *)
    let tokens := requestsPerMinute in
    let interval := duration / requestsPerMinute in
    if interval <=? 0 then None
    else Some {| tokens := tokens;
                 refill := {| period := interval; started := now;
                              delivered := 0; stopped := false |};
                 limit := requestsPerMinute;
                 duration := duration;
                 clock := now |}.


(** [RateLimiter.limiters] *)
Definition RateLimiter : Type := gmap string sourceLimiter.

Definition NewRateLimiter : RateLimiter := ∅.


(** [getLimiter]: the limiter of [source] is reused when its limit is the
    requested one; otherwise a new limiter takes its place in the map (the
    ticker of the old one is stopped, and the old limiter is no longer
    reached through the map). [None] when the creation panics. *)
Definition getLimiter (rl : RateLimiter) (now : Z) (source : string)
  (requestsPerMinute : Z) : option (RateLimiter * sourceLimiter) :=
  match rl !! source with
  | Some limiter =>
      if limit limiter =? requestsPerMinute then Some (rl, limiter)
      else
        match newLimiter now requestsPerMinute with
        | Some fresh => Some (<[source := fresh]> rl, fresh)
        | None => None
        end
  | None =>
      match newLimiter now requestsPerMinute with
      | Some fresh => Some (<[source := fresh]> rl, fresh)
      | None => None
      end
  end.

Inductive event : Type :=
| Elapse (dt : Z)   (* [dt] nanoseconds pass *)
| Tick              (* [startRefill] receives from [refill.C] and runs its select *)
| Acquire.          (* a [Wait] receives from [tokens] and returns nil *)

(** One body of the loop of [startRefill]: send a token unless the
    channel is full. *)
Definition refillOnce (sl : sourceLimiter) : sourceLimiter :=
  {| tokens := if tokens sl <? limit sl then tokens sl + 1 else tokens sl;
     refill := {| period := period (refill sl); started := started (refill sl);
                  delivered := delivered (refill sl) + 1;
                  stopped := stopped (refill sl) |};
     limit := limit sl; duration := duration sl; clock := clock sl |}.

(** The [k]-th tick of a ticker is sent [k] periods after its start at
    the earliest, and a stopped ticker sends none; a receive from an empty
    channel blocks. An event that cannot happen in the state gives [None]. *)
Definition step (sl : sourceLimiter) (e : event) : option sourceLimiter :=
  match e with
  | Elapse dt =>
      if 0 <=? dt
      then Some {| tokens := tokens sl; refill := refill sl; limit := limit sl;
                   duration := duration sl; clock := clock sl + dt |}
      else None
  | Tick =>
      let t := refill sl in
      if negb (stopped t) && (started t + (delivered t + 1) * period t <=? clock sl)
      then Some (refillOnce sl)
      else None
  | Acquire =>
      if 0 <? tokens sl
      then Some {| tokens := tokens sl - 1; refill := refill sl; limit := limit sl;
                   duration := duration sl; clock := clock sl |}
      else None
  end.

Fixpoint exec (sl : sourceLimiter) (es : list event) : option sourceLimiter :=
  match es with
  | [] => Some sl
  | e :: r =>
      match step sl e with
      | Some sl' => exec sl' r
      | None => None
      end
  end.

(** [Wait] on a limiter: the select between [ctx.Done()] and the token
    channel. [ctxErr] is [ctx.Err()] when the context is done; when both
    cases are ready Go takes either, [takeDone] says which. [None] when
    neither is ready: the call blocks. *)
Definition Wait (sl : sourceLimiter) (ctxErr : option errors.error) (takeDone : bool)
  : option (option errors.error * sourceLimiter) :=
  match ctxErr, step sl Acquire with
  | Some err, Some sl' => if takeDone then Some (Some err, sl) else Some (None, sl')
  | Some err, None => Some (Some err, sl)
  | None, Some sl' => Some (None, sl')
  | None, None => None
  end.

Definition isAcquire (e : event) : bool :=
  match e with Acquire => true | _ => false end.

(** The number of acquisitions in a run. *)
Definition acquisitions (es : list event) : Z :=
  Z.of_nat (length (List.filter isAcquire es)).

(** What holds of a limiter in every state it reaches. *)
Definition limiterInv (sl : sourceLimiter) : Prop :=
  0 <= tokens sl <= limit sl
  /\ 0 < period (refill sl)
  /\ 0 <= delivered (refill sl)
  /\ started (refill sl) + delivered (refill sl) * period (refill sl) <= clock sl.

End ratelimit.

(** ** The PowerScraper (package scraper). *)
Module scraper.
Import models errors sources dedup.
Local Open Scope Z_scope.

(** [time.Second] *)
Definition Second : Z := 1000000000.

Record RetryConfig : Type := mkRetryConfig {
  MaxRetries : Z;
  InitialDelay : Z;
  MaxDelay : Z;
  BackoffFactor : float
}.

Record SourceMetrics : Type := mkSourceMetrics {
  JobsScraped : Z;
  JobsSaved : Z;
  Duplicates : Z;
  Errors : Z;
  ResponseTime : Z;
  LastScraped : Time
}.

Definition zeroSourceMetrics : SourceMetrics :=
  {| JobsScraped := 0; JobsSaved := 0; Duplicates := 0; Errors := 0;
     ResponseTime := 0; LastScraped := 0 |}.

Record ScraperMetrics : Type := mkScraperMetrics {
  TotalJobsScraped : Z;
  TotalJobsSaved : Z;
  TotalDuplicates : Z;
  TotalErrors : Z;
  ScrapingDuration : Z;
  SourcePerformance : gmap string SourceMetrics
}.

(** The fields of [PowerScraper] that hold state of the program. The
    storage, the HTTP client, the rate limiter and the logger act on the
    outside; what they answer is in [Env] and [Store] below. *)
Record PowerScraper : Type := mkPowerScraper {
  sourceManager : SourceManager;
  deduplicator : Deduplicator;
  retryConfig : RetryConfig;
  metrics : ScraperMetrics
}.

Definition NewPowerScraper : PowerScraper :=
  {| sourceManager := NewSourceManager;
     deduplicator := NewDeduplicator;
     retryConfig := {| MaxRetries := 3;
                       InitialDelay := 1 * Second;
                       MaxDelay := 30 * Second;
                       BackoffFactor := 2.0 |};
     metrics := {| TotalJobsScraped := 0; TotalJobsSaved := 0; TotalDuplicates := 0;
                   TotalErrors := 0; ScrapingDuration := 0;
                   SourcePerformance := ∅ |} |}.

Definition withSourceManager (ps : PowerScraper) (sm : SourceManager) : PowerScraper :=
  {| sourceManager := sm; deduplicator := deduplicator ps;
     retryConfig := retryConfig ps; metrics := metrics ps |}.

Definition withMetrics (ps : PowerScraper) (m : ScraperMetrics) : PowerScraper :=
  {| sourceManager := sourceManager ps; deduplicator := deduplicator ps;
     retryConfig := retryConfig ps; metrics := m |}.

Definition InitializeSources (ps : PowerScraper) : PowerScraper :=
  let sm1 := RegisterSource (sourceManager ps) remoteok.this
               {| Enabled := true; RateLimit := GetRateLimit remoteok.this;
                  SearchTerms := []; Locations := []; JobTypes := [] |} in
  let sm2 := RegisterSource sm1 remotive.this
               {| Enabled := true; RateLimit := GetRateLimit remotive.this;
                  SearchTerms := []; Locations := []; JobTypes := [] |} in
  withSourceManager ps sm2.

(** [calculateBackoffDelay]: the product is taken in float64 and converted
    to a [time.Duration], an int64 of nanoseconds. *)
Definition backoffProduct (rc : RetryConfig) (attempt : Z) : float :=
  (Float64.of_int (InitialDelay rc) * Float64.of_int attempt * BackoffFactor rc)%float.

Definition calculateBackoffDelay (rc : RetryConfig) (attempt : Z) : Z :=
  let delay := Float64.to_int64 (backoffProduct rc attempt) in
  if MaxDelay rc <? delay then MaxDelay rc else delay.

Record ScraperResult : Type := mkScraperResult {
  Source : string;
  Jobs : list Job;
  Error : option error;
  Duration : Z
}.

(** What the outside answers during one cycle. The tasks of a cycle run
    concurrently; [order] lists the enabled sources in the order in which
    their results are received from [resultsChan]. A task only writes its
    own entry of [SourcePerformance], and does so before it sends its
    result, so the cycle is run here task by task in that order. *)
Record Env : Type := mkEnv {
  order : list string;
  (* what [rateLimiter.Wait ctx source limit] returns *)
  waitErr : string -> Z -> option error;
  (* [ctx.Err()] when [ctx.Done()] wins the select before the attempt,
     given the source, the attempt and the delay *)
  backoffErr : string -> Z -> Z -> option error;
  (* what [FetchJobs] of the source returns at the attempt *)
  fetch : string -> Z -> list Job * option error;
  (* [time.Since(startTime)] when the task of the source returns *)
  elapsed : string -> Z;
  (* [time.Now()] when the result of the source is collected *)
  collectedAt : string -> Time;
  (* [ctx.Err()] when [ctx.Done()] is ready after the batch of this index *)
  saveCtxErr : nat -> option error;
  (* [time.Since(startTime)] at the end of [ScrapeAllSources] *)
  cycleDuration : Z
}.

(** How the retry loop of [scrapeSource] is left. *)
Inductive loopExit : Type :=
| Cancelled (err : error)
| Finished (jobs : list Job) (lastError : option error).

(** The loop [for attempt := 0; attempt <= MaxRetries; attempt++], with
    [fuel] iterations left. *)
Fixpoint attempts (rc : RetryConfig) (env : Env) (sourceName : string)
  (fuel : nat) (attempt : Z) (jobs : list Job) (lastError : option error) : loopExit :=
  match fuel with
  | O => Finished jobs lastError
  | S fuel' =>
      let cancelled :=
        if 0 <? attempt
        then backoffErr env sourceName attempt (calculateBackoffDelay rc attempt)
        else None in
      match cancelled with
      | Some err => Cancelled err
      | None =>
          let '(jobs', lastError') := fetch env sourceName attempt in
          match lastError' with
          | None => Finished jobs' None
          | Some _ => attempts rc env sourceName fuel' (attempt + 1) jobs' lastError'
          end
      end
  end.

Definition sourceMetricOf (m : ScraperMetrics) (name : string) : SourceMetrics :=
  default zeroSourceMetrics (SourcePerformance m !! name).

Definition setSourceMetric (m : ScraperMetrics) (name : string) (sm : SourceMetrics)
  : ScraperMetrics :=
  {| TotalJobsScraped := TotalJobsScraped m; TotalJobsSaved := TotalJobsSaved m;
     TotalDuplicates := TotalDuplicates m; TotalErrors := TotalErrors m;
     ScrapingDuration := ScrapingDuration m;
     SourcePerformance := <[name := sm]> (SourcePerformance m) |}.

(** [sourceMetric.Errors++] on the entry of the source. *)
Definition countSourceError (m : ScraperMetrics) (name : string) : ScraperMetrics :=
  let sourceMetric := sourceMetricOf m name in
  setSourceMetric m name
    {| JobsScraped := JobsScraped sourceMetric; JobsSaved := JobsSaved sourceMetric;
       Duplicates := Duplicates sourceMetric;
       Errors := wrap64 (Errors sourceMetric + 1);
       ResponseTime := ResponseTime sourceMetric;
       LastScraped := LastScraped sourceMetric |}.

Definition scrapeSource (ps : PowerScraper) (env : Env) (sourceName : string)
  : PowerScraper * ScraperResult :=
  let '(config, _) := GetSourceConfig (sourceManager ps) sourceName in
  match waitErr env sourceName (RateLimit config) with
  | Some err =>
      (ps, {| Source := sourceName; Jobs := [];
              Error := Some (Wrapf "rate limit error: %w" err);
              Duration := elapsed env sourceName |})
  | None =>
      let rc := retryConfig ps in
      match attempts rc env sourceName (Z.to_nat (MaxRetries rc + 1)) 0 [] None with
      | Cancelled err =>
          (ps, {| Source := sourceName; Jobs := []; Error := Some err;
                  Duration := elapsed env sourceName |})
      | Finished jobs lastError =>
          let ps' :=
            match lastError with
            | Some _ => withMetrics ps (countSourceError (metrics ps) sourceName)
            | None => ps
            end in
          (ps', {| Source := sourceName; Jobs := jobs; Error := lastError;
                   Duration := elapsed env sourceName |})
      end
  end.

(** [ps.metrics.TotalErrors++] *)
Definition countError (m : ScraperMetrics) : ScraperMetrics :=
  {| TotalJobsScraped := TotalJobsScraped m; TotalJobsSaved := TotalJobsSaved m;
     TotalDuplicates := TotalDuplicates m;
     TotalErrors := wrap64 (TotalErrors m + 1);
     ScrapingDuration := ScrapingDuration m;
     SourcePerformance := SourcePerformance m |}.

(** The metrics update of the collecting loop for a result without
    error: the two totals are added to, the entry of the source gets the
    counts of this result. *)
Definition recordResult (m : ScraperMetrics) (env : Env) (result : ScraperResult)
  (duplicates : Z) : ScraperMetrics :=
  let sourceMetric := sourceMetricOf m (Source result) in
  {| TotalJobsScraped := wrap64 (TotalJobsScraped m + Z.of_nat (length (Jobs result)));
     TotalJobsSaved := TotalJobsSaved m;
     TotalDuplicates := wrap64 (TotalDuplicates m + duplicates);
     TotalErrors := TotalErrors m;
     ScrapingDuration := ScrapingDuration m;
     SourcePerformance :=
       <[Source result :=
           {| JobsScraped := Z.of_nat (length (Jobs result));
              JobsSaved := JobsSaved sourceMetric;
              Duplicates := duplicates;
              Errors := Errors sourceMetric;
              ResponseTime := Duration result;
              LastScraped := collectedAt env (Source result) |}]>
         (SourcePerformance m) |}.

(** One body of the loop [for result := range resultsChan]. *)
Definition collect (ps : PowerScraper) (env : Env) (result : ScraperResult)
  (allJobs : list Job) : PowerScraper * list Job :=
  match Error result with
  | Some _ => (withMetrics ps (countError (metrics ps)), allJobs)
  | None =>
      let '(d, uniqueJobs) := RemoveDuplicates (deduplicator ps) (Jobs result) in
      let duplicates := Z.of_nat (length (Jobs result)) - Z.of_nat (length uniqueJobs) in
      ({| sourceManager := sourceManager ps; deduplicator := d;
          retryConfig := retryConfig ps;
          metrics := recordResult (metrics ps) env result duplicates |},
       allJobs ++ uniqueJobs)
  end.

(** The tasks of the enabled sources and the collection of their results,
    in the order of arrival. *)
Fixpoint runTasks (ps : PowerScraper) (env : Env) (enabledSources : gmap string JobSource)
  (names : list string) (allJobs : list Job) : PowerScraper * list Job :=
  match names with
  | [] => (ps, allJobs)
  | name :: rest =>
      match enabledSources !! name with
      | Some _ =>
          let '(ps1, result) := scrapeSource ps env name in
          let '(ps2, allJobs') := collect ps1 env result allJobs in
          runTasks ps2 env enabledSources rest allJobs'
      | None => runTasks ps env enabledSources rest allJobs
      end
  end.

(** Every enabled source has one task in a cycle. *)
Definition wellScheduled (ps : PowerScraper) (env : Env) : Prop :=
  Permutation (order env) (map fst (map_to_list (GetEnabledSources (sourceManager ps)))).

(** The scraper and [allJobs] when [resultsChan] is drained. *)
Definition collectAll (ps : PowerScraper) (env : Env) : PowerScraper * list Job :=
  runTasks ps env (GetEnabledSources (sourceManager ps)) (order env) [].

(** The results the tasks of the sources [names] send, in that order. *)
Definition resultsFor (ps : PowerScraper) (env : Env)
  (enabledSources : gmap string JobSource) (names : list string) : list ScraperResult :=
  omap (fun name =>
    match enabledSources !! name with
    | Some _ => Some (scrapeSource ps env name).2
    | None => None
    end) names.

(** The results the tasks of a cycle send, in the order of arrival. *)
Definition results (ps : PowerScraper) (env : Env) : list ScraperResult :=
  resultsFor ps env (GetEnabledSources (sourceManager ps)) (order env).

Definition succeeded (r : ScraperResult) : bool :=
  match Error r with
  | None => true
  | Some _ => false
  end.

(** The batches that reach the deduplicator in a cycle. *)
Definition fetchedBatches (rs : list ScraperResult) : list (list Job) :=
  map Jobs (List.filter succeeded rs).

(** The number of records in the results without error, and the number of
    results with an error. *)
Definition fetchedCount (rs : list ScraperResult) : Z :=
  Z.of_nat (length (concat (fetchedBatches rs))).

Definition failedCount (rs : list ScraperResult) : Z :=
  Z.of_nat (length (List.filter (fun r => negb (succeeded r)) rs)).

(** The task of the source got its token and was not cancelled, and its
    last attempt failed: the case in which [scrapeSource] counts an error
    for the source. *)
Definition retriesExhausted (ps : PowerScraper) (env : Env) (sourceName : string) : bool :=
  match waitErr env sourceName (RateLimit (GetSourceConfig (sourceManager ps) sourceName).1) with
  | Some _ => false
  | None =>
      match attempts (retryConfig ps) env sourceName
              (Z.to_nat (MaxRetries (retryConfig ps) + 1)) 0 [] None with
      | Finished _ (Some _) => true
      | _ => false
      end
  end.

(** The first cancellation seen by the checks after the batches [i],
    [i + 1], ..., [i + n - 1]. *)
Fixpoint firstCtxErr (env : Env) (i n : nat) : option error :=
  match n with
  | O => None
  | S n' =>
      match saveCtxErr env i with
      | Some ctxErr => Some ctxErr
      | None => firstCtxErr env (S i) n'
      end
  end.

(** The values of an int64. *)
Definition int64 (z : Z) : Prop := - 2 ^ 63 <= z < 2 ^ 63.

Definition batchSize : nat := 50.

(** The slices [jobs[i:end]] of [saveJobs]. *)
Fixpoint batchesOf (fuel : nat) (jobs : list Job) : list (list Job) :=
  match fuel, jobs with
  | O, _ => []
  | _, [] => []
  | S fuel', _ => firstn batchSize jobs :: batchesOf fuel' (skipn batchSize jobs)
  end.

(** The calls made to the storage. *)
Inductive call : Type :=
| SaveJobsCall (batch : list Job)
| SaveJobCall (job : Job).

Definition jobsOfCall (c : call) : list Job :=
  match c with
  | SaveJobsCall batch => batch
  | SaveJobCall job => [job]
  end.

(** The records handed to the storage by a sequence of calls. *)
Definition submitted (log : list call) : list Job := flat_map jobsOfCall log.

Section WithStore.

(** [storage.Store]: the state of the storage is [St]; [None] is a nil
    error. *)
Context {St : Type}.

Record Store : Type := mkStore {
  SaveJob : Job -> St -> option error * St;
  SaveJobs : list Job -> St -> option error * St
}.

Variable store : Store.

(** The fallback loop: every record of the batch is saved on its own and
    a failure is only logged. *)
Fixpoint saveEach (batch : list Job) (st : St) : St * list call :=
  match batch with
  | [] => (st, [])
  | job :: rest =>
      let '(_, st1) := SaveJob store job st in
      let '(st2, log) := saveEach rest st1 in
      (st2, SaveJobCall job :: log)
  end.

Fixpoint saveBatches (env : Env) (i : nat) (batches : list (list Job)) (st : St)
  : option error * St * list call :=
  match batches with
  | [] => (None, st, [])
  | batch :: rest =>
      let '(err, st1) := SaveJobs store batch st in
      let '(st2, log) :=
        match err with
        | Some _ => saveEach batch st1
        | None => (st1, [])
        end in
      match saveCtxErr env i with
      | Some ctxErr => (Some ctxErr, st2, SaveJobsCall batch :: log)
      | None =>
          let '(r, st3, log') := saveBatches env (S i) rest st2 in
          (r, st3, SaveJobsCall batch :: log ++ log')
      end
  end.

Definition saveJobs (env : Env) (jobs : list Job) (st : St)
  : option error * St * list call :=
  saveBatches env 0 (batchesOf (length jobs) jobs) st.

(** What a cycle leaves: the error returned, the scraper, the storage and
    the calls made to the storage. *)
Record Outcome : Type := mkOutcome {
  returned : option error;
  scraper : PowerScraper;
  storage : St;
  calls : list call
}.

(** The deferred [ps.metrics.ScrapingDuration = time.Since(startTime)]. *)
Definition setDuration (ps : PowerScraper) (env : Env) : PowerScraper :=
  let m := metrics ps in
  withMetrics ps
    {| TotalJobsScraped := TotalJobsScraped m; TotalJobsSaved := TotalJobsSaved m;
       TotalDuplicates := TotalDuplicates m; TotalErrors := TotalErrors m;
       ScrapingDuration := cycleDuration env;
       SourcePerformance := SourcePerformance m |}.

(** [ps.metrics.TotalJobsSaved = int64(len(allJobs))] *)
Definition setSaved (ps : PowerScraper) (allJobs : list Job) : PowerScraper :=
  let m := metrics ps in
  withMetrics ps
    {| TotalJobsScraped := TotalJobsScraped m;
       TotalJobsSaved := Z.of_nat (length allJobs);
       TotalDuplicates := TotalDuplicates m; TotalErrors := TotalErrors m;
       ScrapingDuration := ScrapingDuration m;
       SourcePerformance := SourcePerformance m |}.

Definition ScrapeAllSources (ps : PowerScraper) (env : Env) (st : St) : Outcome :=
  let enabledSources := GetEnabledSources (sourceManager ps) in
  if (size enabledSources =? 0)%nat then
    {| returned := Some (Errorf "no enabled sources found");
       scraper := setDuration ps env; storage := st; calls := [] |}
  else
    let '(ps1, allJobs) := collectAll ps env in
    if (0 <? length allJobs)%nat then
      match saveJobs env allJobs st with
      | (Some err, st', log) =>
          {| returned := Some (Wrapf "failed to save jobs: %w" err);
             scraper := setDuration ps1 env; storage := st'; calls := log |}
      | (None, st', log) =>
          {| returned := None;
             scraper := setDuration (setSaved ps1 allJobs) env;
             storage := st'; calls := log |}
      end
    else
      {| returned := None; scraper := setDuration ps1 env; storage := st; calls := [] |}.

(** Consecutive cycles of one scraper, as the periodic loop of the
    service runs them; the outcome of each cycle is returned. *)
Fixpoint runCycles (ps : PowerScraper) (st : St) (envs : list Env) : list Outcome :=
  match envs with
  | [] => []
  | env :: rest =>
      let o := ScrapeAllSources ps env st in
      o :: runCycles (scraper o) (storage o) rest
  end.

(** The scraper and the storage after the cycles. *)
Fixpoint afterCycles (ps : PowerScraper) (st : St) (envs : list Env) : PowerScraper * St :=
  match envs with
  | [] => (ps, st)
  | env :: rest =>
      let o := ScrapeAllSources ps env st in
      afterCycles (scraper o) (storage o) rest
  end.

End WithStore.

Arguments Store : clear implicits.
Arguments Outcome : clear implicits.

End scraper.

(** ** Concrete runs, used to evaluate the program. *)
Module examples.
Import models errors sources dedup scraper.
Local Open Scope Z_scope.

Definition job (title company location url source : string) : Job :=
  {| ID := 0; Title := title; Company := company; Location := location; URL := url;
     Description := " "; Salary := " "; PostedDate := None; models.Source := source;
     JobCategory := "Technology"; JobType := JobTypeFullTime; ScrapedAt := 0 |}.

(** One posting as two providers list it, and three other postings. *)
Definition jobA : Job :=
  job "Go Developer" "ACME" "Remote" "https://remoteok.com/remote-jobs/1" "RemoteOK".
Definition jobA' : Job :=
  job " go developer" "Acme " "REMOTE" "https://remotive.com/remote-jobs/77" "Remotive".
Definition jobB : Job :=
  job "Data Engineer" "Initech" "Berlin" "https://remoteok.com/remote-jobs/2" "RemoteOK".
Definition jobC : Job :=
  job "Site Reliability Engineer" "Globex" "Remote" "https://remotive.com/remote-jobs/78" "Remotive".
Definition jobD : Job :=
  job "Frontend Developer" "Hooli" "Lisbon" "https://remoteok.com/remote-jobs/3" "RemoteOK".

(** The scraper of the service: RemoteOK and Remotive, both enabled. *)
Definition ps0 : PowerScraper := InitializeSources NewPowerScraper.

(** A cycle in which nothing is cancelled and every source answers at its
    first attempt with the batch [batches] gives for it. *)
Definition quiet (names : list string) (batches : string -> list Job) : Env :=
  {| order := names;
     waitErr := fun _ _ => None;
     backoffErr := fun _ _ _ => None;
     fetch := fun name _ => (batches name, None);
     elapsed := fun _ => 0;
     collectedAt := fun _ => 0;
     saveCtxErr := fun _ => None;
     cycleDuration := 0 |}.

(** RemoteOK answers before Remotive, each with its listing of the same
    posting. *)
Definition sameJobTwice : Env :=
  quiet ["RemoteOK"; "Remotive"]
    (fun name => if String.eqb name "RemoteOK" then [jobA] else [jobA']).

(** RemoteOK answers with one posting; Remotive fails at every attempt. *)
Definition remotiveDown : Env :=
  {| order := ["RemoteOK"; "Remotive"];
     waitErr := fun _ _ => None;
     backoffErr := fun _ _ _ => None;
     fetch := fun name _ =>
       if String.eqb name "RemoteOK" then ([jobA], None)
       else ([], Some (Errorf "Remotive API returned status %d"));
     elapsed := fun _ => 0;
     collectedAt := fun _ => 0;
     saveCtxErr := fun _ => None;
     cycleDuration := 0 |}.

(** Both sources answer; the context is cancelled while the first batch
    is saved. *)
Definition cancelledWhileSaving : Env :=
  {| order := ["RemoteOK"; "Remotive"];
     waitErr := fun _ _ => None;
     backoffErr := fun _ _ _ => None;
     fetch := fun name _ => if String.eqb name "RemoteOK" then ([jobA], None) else ([jobC], None);
     elapsed := fun _ => 0;
     collectedAt := fun _ => 0;
     saveCtxErr := fun _ => Some Canceled;
     cycleDuration := 0 |}.

(** Two cycles of the service: five records fetched in all, one of them
    again in the second cycle. *)
Definition firstCycle : Env :=
  quiet ["RemoteOK"; "Remotive"]
    (fun name => if String.eqb name "RemoteOK" then [jobA; jobB] else [jobC]).
Definition secondCycle : Env :=
  quiet ["Remotive"; "RemoteOK"]
    (fun name => if String.eqb name "RemoteOK" then [jobD] else [jobC]).

(** A storage that accepts every write, and one that rejects every write. *)
Definition acceptAll : Store unit :=
  {| SaveJob := fun _ st => (None, st); SaveJobs := fun _ st => (None, st) |}.
Definition rejectAll : Store unit :=
  {| SaveJob := fun _ st => (Some (External "rejected"), st);
     SaveJobs := fun _ st => (Some (External "rejected"), st) |}.

End examples.

(** ** Notions used to state further properties of the deduplicator. *)
Module dedupSpec.
Import models dedup.

(** Every entry of the seen map is [true]: the only value
    [RemoveDuplicates] writes. *)
Definition allTrue (d : Deduplicator) : Prop :=
  forall (h : string) (b : bool), seenJobs d !! h = Some b -> b = true.

(** The set of lower-cased words of a string, as [stringSimilarity]
    builds it. *)
Definition wordSet (s : string) : gset string :=
  list_to_set (Strings.Fields (Strings.ToLower s)).

(** The Jaccard index of two sets of words, in float64: the size of the
    intersection over the size of the union, and 0 when either set is
    empty. *)
Definition jaccard (A B : gset string) : float :=
  if (size A =? 0)%nat || (size B =? 0)%nat then 0%float
  else (Float64.of_int (Z.of_nat (size (A ∩ B)))
        / Float64.of_int (Z.of_nat (size (A ∪ B))))%float.

(** The digits of [%x]. *)
Definition isLowerHex (c : ascii) : Prop :=
  In c (list_ascii_of_string "0123456789abcdef").



(** A pair [i < j] of positions of a list, with the records there. *)
Definition orderedPair (jobs : list Job) (j1 j2 : Job) : Prop :=
  exists l1 l2 l3, jobs = l1 ++ j1 :: l2 ++ j2 :: l3.

End dedupSpec.

(** ** Notions used to state further properties of the scraper. *)
Module scraperSpec.
Import models errors sources dedup scraper.
Local Open Scope Z_scope.

(** The attempts before attempt [k] all fail and no wait before one of
    them is cancelled. *)
Definition failsBefore (rc : RetryConfig) (env : Env) (name : string) (k : Z) : Prop :=
  (forall i, 0 <= i < k -> (fetch env name i).2 <> None)
  /\ (forall i, 1 <= i < k -> backoffErr env name i (calculateBackoffDelay rc i) = None).

(** The rate limiter lets the task of the source through. *)
Definition admitted (ps : PowerScraper) (env : Env) (name : string) : Prop :=
  waitErr env name (RateLimit (GetSourceConfig (sourceManager ps) name).1) = None.

(** The batches of the [SaveJobs] calls of a log, and the records of its
    [SaveJob] calls. *)
Definition batchCalls (log : list call) : list (list Job) :=
  omap (fun c => match c with SaveJobsCall batch => Some batch | SaveJobCall _ => None end) log.

Definition singleCalls (log : list call) : list Job :=
  omap (fun c => match c with SaveJobCall job => Some job | SaveJobsCall _ => None end) log.

(** The number of batches [saveJobs] writes, of [n] batches from index
    [i] on: it stops after the first batch whose check finds the context
    cancelled. *)
Fixpoint batchesWritten (env : Env) (i n : nat) : nat :=
  match n with
  | O => O
  | S n' =>
      match saveCtxErr env i with
      | Some _ => 1%nat
      | None => S (batchesWritten env (S i) n')
      end
  end.

(** A storage that accepts every batch, and one that rejects every batch. *)
Definition acceptsBatches {St : Type} (store : Store St) : Prop :=
  forall batch st, (SaveJobs store batch st).1 = None.


End scraperSpec.

(** ** The configuration (package config). Durations are nanoseconds. *)
Module config.
Import errors.
Local Open Scope Z_scope.

Record ServerConfig : Type := mkServerConfig {
  Port : Z;
  ReadTimeout : Z;
  WriteTimeout : Z;
  IdleTimeout : Z
}.

Record DatabaseConfig : Type := mkDatabaseConfig {
  SupabaseURL : string;
  SupabaseKey : string
}.

Record ScraperConfig : Type := mkScraperConfig {
  ConcurrentSources : Z;
  BatchSize : Z;
  RetryAttempts : Z;
  RetryDelay : Z;
  ScrapingInterval : Z;
  RequestTimeout : Z;
  EnableDedup : bool
}.

Record SourceConfig : Type := mkSourceConfig {
  Enabled : bool;
  RateLimit : Z;
  SearchTerms : list string;
  Locations : list string;
  JobTypes : list string
}.

Record SourcesConfig : Type := mkSourcesConfig {
  RemoteOK : SourceConfig;
  Remotive : SourceConfig;
  WeWorkRemotely : SourceConfig
}.

(** The field [Enabled] of [MonitoringConfig] is [MonitoringEnabled]
    here. *)
Record MonitoringConfig : Type := mkMonitoringConfig {
  MonitoringEnabled : bool;
  MetricsInterval : Z;
  LogLevel : string;
  LogFile : string
}.

Record Config : Type := mkConfig {
  Server : ServerConfig;
  Database : DatabaseConfig;
  Scraper : ScraperConfig;
  Sources : SourcesConfig;
  Monitoring : MonitoringConfig
}.

Definition Second : Z := 1000000000.
Definition Minute : Z := 60 * Second.

(** [DefaultConfig]; [getenv] is [os.Getenv]. *)
Definition DefaultConfig (getenv : string -> string) : Config :=
  {| Server := {| Port := 8080; ReadTimeout := 10 * Second;
                  WriteTimeout := 10 * Second; IdleTimeout := 60 * Second |};
     Database := {| SupabaseURL := getenv "SUPABASE_URL";
                    SupabaseKey := getenv "SUPABASE_KEY" |};
     Scraper := {| ConcurrentSources := 5; BatchSize := 50; RetryAttempts := 3;
                   RetryDelay := 2 * Second; ScrapingInterval := 15 * Minute;
                   RequestTimeout := 30 * Second; EnableDedup := true |};
     Sources :=
       {| RemoteOK := {| Enabled := true; RateLimit := 60;
                         SearchTerms := ["golang"; "go"; "backend"; "api"; "microservices"];
                         Locations := ["remote"; "worldwide"];
                         JobTypes := ["full-time"; "contract"] |};
          Remotive := {| Enabled := true; RateLimit := 100;
                         SearchTerms := ["software-dev"; "devops"; "data"];
                         Locations := ["remote"];
                         JobTypes := ["full_time"; "contract"] |};
          WeWorkRemotely := {| Enabled := false; RateLimit := 30;
                               SearchTerms := ["backend"; "go"; "api"];
                               Locations := ["remote"];
                               JobTypes := ["full-time"] |} |};
     Monitoring := {| MonitoringEnabled := true; MetricsInterval := 1 * Minute;
                      LogLevel := "info"; LogFile := "logs/scraper.log" |} |}.

(** What [LoadConfig] finds at the file name: no file, a file that cannot
    be opened, a file that cannot be decoded, or a file whose JSON is
    decoded onto the default configuration. *)
Inductive configFile : Type :=
| NotExist
| OpenFails (err : error)
| DecodeFails (err : error)
| Decodes (onto : Config -> Config).

Definition LoadConfig (getenv : string -> string) (file : configFile)
  : option Config * option error :=
  let config := DefaultConfig getenv in
  match file with
  | NotExist => (Some config, None)
  | OpenFails err => (None, Some (Wrapf "failed to open config file: %w" err))
  | DecodeFails err => (None, Some (Wrapf "failed to decode config file: %w" err))
  | Decodes onto => (Some (onto config), None)
  end.

Definition Validate (c : Config) : option error :=
  if String.eqb (SupabaseURL (Database c)) "" then
    Some (Errorf "supabase URL is required")
  else if String.eqb (SupabaseKey (Database c)) "" then
    Some (Errorf "supabase key is required")
  else if ConcurrentSources (Scraper c) <=? 0 then
    Some (Errorf "concurrent sources must be positive")
  else if BatchSize (Scraper c) <=? 0 then
    Some (Errorf "batch size must be positive")
  else if RetryAttempts (Scraper c) <? 0 then
    Some (Errorf "retry attempts cannot be negative")
  else
    let hasEnabledSource :=
      Enabled (RemoteOK (Sources c)) || Enabled (Remotive (Sources c))
      || Enabled (WeWorkRemotely (Sources c)) in
    if negb hasEnabledSource then
      Some (Errorf "at least one job source must be enabled")
    else None.

End config.

(** * Properties *)

#[local] Set Warnings "-clear-no-such-hyp".

(** ** Sanity checks of the library models against known values. *)

Example md5_empty : Md5.hex (Md5.Sum (Md5.bytesOf "")) = "d41d8cd98f00b204e9800998ecf8427e".
Proof. vm_compute. reflexivity. Qed.

Example md5_abc : Md5.hex (Md5.Sum (Md5.bytesOf "abc")) = "900150983cd24fb0d6963f7d28e17f72".
Proof. vm_compute. reflexivity. Qed.

Example md5_two_blocks :
  Md5.hex (Md5.Sum (Md5.bytesOf
    "aaaaaaaaaaaaaaaaaaaaaaaaaaaaaaaaaaaaaaaaaaaaaaaaaaaaaaaaaaaaaaaaaaaaaa"))
  = "0f5c6c4e740bfcc08c3c26ccb2673d46".
Proof. vm_compute. reflexivity. Qed.

Example TrimSpace_ex : Strings.TrimSpace "  Go  Dev 	" = "Go  Dev".
Proof. reflexivity. Qed.

Example Fields_ex : Strings.Fields " Senior  Go dev " = ["Senior"; "Go"; "dev"].
Proof. reflexivity. Qed.

Example similarity_ex :
  dedup.stringSimilarity "Senior Go Developer" "go developer"
  = (Float64.of_int 2 / Float64.of_int 3)%float.
Proof. vm_compute. reflexivity. Qed.

Example hash_ex :
  dedup.generateJobHash
    (models.mkJob 0 "  Go Developer " "ACME" "Remote" "u" "d" "s" None "RemoteOK" "c" "t" 0%Z)
  = "5a70087c2fd44b53de95e539e8e06ca9".
Proof. vm_compute. reflexivity. Qed.

Lemma one_neq_zero : (1 <> 0)%float.
Proof.
  intros H. apply (f_equal (fun x => PrimFloat.eqb x 1)) in H.
  vm_compute in H. discriminate.
Qed.

Example of_int_exact : Float64.to_int64 (Float64.of_int 30000000000) = 30000000000%Z.
Proof. vm_compute. reflexivity. Qed.

Example to_int64_truncates : Float64.to_int64 2.75 = 2%Z /\ Float64.to_int64 (-2.75) = (-2)%Z.
Proof. split; vm_compute; reflexivity. Qed.

(** ** The deduplicator *)
Section DedupFacts.
Import models dedup.

Lemma seen_markSeen (d : Deduplicator) (h h' : string) :
  seen (markSeen d h) h' = String.eqb h' h || seen d h'.
Proof.
  unfold seen, markSeen; simpl.
  destruct (String.eqb_spec h' h) as [->|Hne].
  - by rewrite lookup_insert_eq.
  - rewrite lookup_insert_ne; [done | congruence].
Qed.

Lemma hasKey_true (h : string) (j : Job) : hasKey h j = true <-> generateJobHash j = h.
Proof. unfold hasKey. apply String.eqb_eq. Qed.

(** The deduplicator after a batch has seen what it had seen before and
    the keys of the batch. *)
Lemma RemoveDuplicates_seen (jobs : list Job) :
  forall (d : Deduplicator) (h : string),
    seen (RemoveDuplicates d jobs).1 h = seen d h || existsb (hasKey h) jobs.
Proof.
  induction jobs as [|job rest IH]; intros d h; simpl.
  - by rewrite orb_false_r.
  - destruct (seen d (generateJobHash job)) eqn:Hs; simpl.
    + rewrite IH. destruct (hasKey h job) eqn:Hk; simpl; [|done].
      apply hasKey_true in Hk. subst h. by rewrite Hs.
    + destruct (RemoveDuplicates (markSeen d (generateJobHash job)) rest) as [d' u] eqn:E.
      simpl. replace d' with (RemoveDuplicates (markSeen d (generateJobHash job)) rest).1
        by (rewrite E; reflexivity).
      rewrite IH, seen_markSeen.
      destruct (hasKey h job) eqn:Hk; unfold hasKey in Hk;
        rewrite String.eqb_sym in Hk; rewrite Hk; by destruct (seen d h).
Qed.

(** Of the records of a batch with key [h], the first is kept when [h] had
    not been seen, and none otherwise. *)
Lemma RemoveDuplicates_withKey (jobs : list Job) :
  forall (d : Deduplicator) (h : string),
    withKey h (RemoveDuplicates d jobs).2 =
    if seen d h then [] else option_list (firstWithKey h jobs).
Proof.
  induction jobs as [|job rest IH]; intros d h; simpl.
  - by destruct (seen d h).
  - unfold firstWithKey; simpl. fold (firstWithKey h rest).
    destruct (seen d (generateJobHash job)) eqn:Hs; simpl.
    + rewrite IH. destruct (hasKey h job) eqn:Hk; [|done].
      apply hasKey_true in Hk. subst h. by rewrite Hs.
    + destruct (RemoveDuplicates (markSeen d (generateJobHash job)) rest) as [d' u] eqn:E.
      simpl. replace u with (RemoveDuplicates (markSeen d (generateJobHash job)) rest).2
        by (rewrite E; reflexivity).
      unfold withKey; simpl. fold (withKey h (RemoveDuplicates (markSeen d (generateJobHash job)) rest).2).
      rewrite IH, seen_markSeen.
      destruct (hasKey h job) eqn:Hk.
      * pose proof Hk as Hk'. apply hasKey_true in Hk'. subst h.
        rewrite String.eqb_refl, Hs. reflexivity.
      * unfold hasKey in Hk. rewrite String.eqb_sym in Hk. rewrite Hk. reflexivity.
Qed.

Lemma RemoveDuplicates_app (a b : list Job) :
  forall d : Deduplicator,
    RemoveDuplicates d (a ++ b) =
    let '(d1, u1) := RemoveDuplicates d a in
    let '(d2, u2) := RemoveDuplicates d1 b in
    (d2, u1 ++ u2).
Proof.
  induction a as [|job rest IH]; intros d; simpl.
  - by destruct (RemoveDuplicates d b).
  - destruct (seen d (generateJobHash job)); simpl.
    + apply IH.
    + rewrite IH.
      destruct (RemoveDuplicates (markSeen d (generateJobHash job)) rest) as [d1 u1].
      by destruct (RemoveDuplicates d1 b).
Qed.

(** Feeding the batches one by one is feeding their concatenation. *)
Lemma RemoveDuplicatesSeq_concat (batches : list (list Job)) :
  forall d : Deduplicator,
    RemoveDuplicatesSeq d batches = RemoveDuplicates d (concat batches).
Proof.
  induction batches as [|b bs IH]; intros d; simpl; [done|].
  rewrite RemoveDuplicates_app.
  destruct (RemoveDuplicates d b) as [d1 u]. by rewrite IH.
Qed.

Lemma normalized_hash (r1 r2 : Job) :
  normalized r1 = normalized r2 -> generateJobHash r1 = generateJobHash r2.
Proof.
  unfold normalized, generateJobHash. intros H. injection H as H1 H2 H3.
  by rewrite H1, H2, H3.
Qed.

Lemma existsb_hasKey_In (h : string) (l : list Job) (j : Job) :
  In j l -> generateJobHash j = h -> existsb (hasKey h) l = true.
Proof.
  intros Hin Hh. apply existsb_exists. exists j. split; [exact Hin|]. apply hasKey_true, Hh.
Qed.

Lemma firstWithKey_In (l : list Job) (j : Job) :
  In j l -> exists j0, firstWithKey (generateJobHash j) l = Some j0.
Proof.
  unfold firstWithKey. intros Hin.
  destruct (find (hasKey (generateJobHash j)) l) as [j0|] eqn:E; [by exists j0|].
  exfalso. eapply find_none in E; [|exact Hin].
  assert (hasKey (generateJobHash j) j = true) as Hk by (apply hasKey_true; reflexivity).
  congruence.
Qed.

End DedupFacts.

Section DedupClaims.
Import models dedup.


(** The step of the Jaccard loop counts, over the words of [set2], those
    in [set1] and those outside it. *)
Lemma jaccard_fold (set1 set2 : gset string) (i0 u0 : Z) :
  set_fold (jaccardStep set1) (i0, u0) set2
  = ((i0 + Z.of_nat (size (set2 ∩ set1)))%Z, (u0 + Z.of_nat (size (set2 ∖ set1)))%Z).
Proof.
  apply (set_fold_ind_L
    (fun r X => r = ((i0 + Z.of_nat (size (X ∩ set1)))%Z,
                     (u0 + Z.of_nat (size (X ∖ set1)))%Z))).
  - replace (∅ ∩ set1) with (∅ : gset string) by set_solver.
    replace (∅ ∖ set1) with (∅ : gset string) by set_solver.
    rewrite size_empty. f_equal; lia.
  - intros x X r Hx ->. unfold jaccardStep.
    destruct (decide (x ∈ set1)) as [Hin|Hout].
    + replace (({[x]} ∪ X) ∩ set1) with ({[x]} ∪ (X ∩ set1)) by set_solver.
      replace (({[x]} ∪ X) ∖ set1) with (X ∖ set1) by set_solver.
      rewrite (size_union ({[x]} : gset string) (X ∩ set1)) by set_solver.
      rewrite size_singleton. f_equal; lia.
    + replace (({[x]} ∪ X) ∩ set1) with (X ∩ set1) by set_solver.
      replace (({[x]} ∪ X) ∖ set1) with ({[x]} ∪ (X ∖ set1)) by set_solver.
      rewrite (size_union ({[x]} : gset string) (X ∖ set1)) by set_solver.
      rewrite size_singleton. f_equal; lia.
Qed.

(** C7. The similarity of two strings does not depend on their order,
    although the union is counted from the first set. *)
Theorem stringSimilarity_symmetric (a b : string) :
  stringSimilarity a b = stringSimilarity b a.
Proof.
  unfold stringSimilarity.
  rewrite (String.eqb_sym b a).
  destruct (String.eqb a b); [reflexivity|].
  rewrite (orb_comm (String.eqb b "")).
  destruct (String.eqb a "" || String.eqb b ""); [reflexivity|].
  rewrite (orb_comm (length (Strings.Fields (Strings.ToLower b)) =? 0)%nat).
  destruct ((length (Strings.Fields (Strings.ToLower a)) =? 0)%nat
            || (length (Strings.Fields (Strings.ToLower b)) =? 0)%nat); [reflexivity|].
  rewrite !jaccard_fold.
  set (A := list_to_set (Strings.Fields (Strings.ToLower a)) : gset string).
  set (B := list_to_set (Strings.Fields (Strings.ToLower b)) : gset string).
  assert (Hi : size (B ∩ A) = size (A ∩ B)) by (f_equal; set_solver).
  assert (Hu : (size A + size (B ∖ A) = size B + size (A ∖ B))%nat).
  { rewrite <- !size_union_alt. f_equal. set_solver. }
  rewrite Hi.
  replace (Z.of_nat (size A) + Z.of_nat (size (B ∖ A)))%Z
    with (Z.of_nat (size B) + Z.of_nat (size (A ∖ B)))%Z by lia.
  reflexivity.
Qed.

(** C6, as the code has it: identical strings have similarity 1, the two
    empty strings included, because the test for identity comes first;
    two different strings one of which is empty have similarity 0. *)
Theorem stringSimilarity_identical_or_one_empty (a b : string) :
  (a = b -> stringSimilarity a b = 1%float)
  /\ (a <> b -> a = "" \/ b = "" -> stringSimilarity a b = 0%float).
Proof.
  unfold stringSimilarity. split.
  - intros ->. by rewrite String.eqb_refl.
  - intros Hne He.
    destruct (String.eqb_spec a b) as [Heq|_]; [contradiction|].
    destruct He as [->| ->]; simpl; [reflexivity|].
    by rewrite orb_true_r.
Qed.

(** C6, the claim as stated fails: for two empty strings the similarity is
    1, not the 0 of the either-empty rule. *)
Lemma stringSimilarity_both_empty_is_one :
  stringSimilarity "" "" = 1%float /\ stringSimilarity "" "" <> 0%float.
Proof.
  split; [reflexivity|].
  change (stringSimilarity "" "") with 1%float. exact one_neq_zero.
Qed.

End DedupClaims.

(** ** The retry delay *)
Section BackoffClaims.
Import scraper.
Local Open Scope Z_scope.





End BackoffClaims.

(** ** The adapters and the placeholder fields *)
Section AdapterClaims.
Import models sources.
Local Open Scope Z_scope.

(** Every record made by the Remotive adapter has a description, a salary
    and a category that are not empty. *)
Lemma remotive_placeholders (timeParse : string -> string -> option Time) (timeNow : Time)
  (item : remotive.RemotiveJob) :
  let job := remotive.convert timeParse timeNow item in
  Description job <> "" /\ Salary job <> "" /\ JobCategory job <> "".
Proof.
  simpl. repeat split.
  - destruct (String.eqb_spec (remotive.Description item) ""); [discriminate | assumption].
  - destruct (String.eqb_spec (remotive.Salary item) ""); [discriminate | assumption].
  - destruct (String.eqb_spec
      (remotive.getJobCategory (remotive.Category item) (remotive.Title item)) "");
      [discriminate | assumption].
Qed.

(** Every record made by the RemoteOK adapter has an empty salary, and the
    description of the item as it came. *)
Lemma remoteok_no_placeholders (item : remoteok.RemoteOKJob) (job : Job) :
  remoteok.convert item = Some job ->
  Salary job = "" /\ Description job = remoteok.Description item.
Proof.
  unfold remoteok.convert.
  destruct (String.eqb (remoteok.ID item) ""); [discriminate|].
  destruct (String.eqb _ ""); intros [= <-]; split; reflexivity.
Qed.

(** C9, the code at a RemoteOK item without description: the record it
    makes has an empty salary and an empty description, where the Remotive
    adapter puts a one-space placeholder. *)
Theorem remoteok_record_with_empty_fields :
  let item := remoteok.mkRemoteOKJob "123" "go-developer" "ACME" "" "Go Developer"
                ["golang"; "full-time"] "" "Remote" true "" "" 1700000000 in
  exists job,
    remoteok.FetchJobs (Parsed [item]) = ([job], None)
    /\ Title job = "Go Developer"
    /\ URL job = "https://remoteok.com/remote-jobs/go-developer"
    /\ JobCategory job = "Backend Development"
    /\ Salary job = ""
    /\ Description job = "".
Proof.
  simpl. eexists. split; [reflexivity|]. repeat split.
Qed.

End AdapterClaims.

(** ** The rate limiter *)
Section RateLimiterClaims.
Import ratelimit.
Local Open Scope Z_scope.

Lemma newLimiter_spec (now N : Z) (sl0 : sourceLimiter) :
  newLimiter now N = Some sl0 ->
  tokens sl0 = N /\ limit sl0 = N /\ clock sl0 = now
  /\ started (refill sl0) = now /\ delivered (refill sl0) = 0
  /\ period (refill sl0) = Minute / N /\ 0 < N /\ limiterInv sl0.
Proof.
  unfold newLimiter.
  destruct (Z.leb_spec N 0) as [|HN]; [discriminate|].
  destruct (Z.leb_spec (Minute / N) 0) as [|Hp]; [discriminate|].
  intros [= <-]; simpl. unfold limiterInv; simpl. repeat split; lia.
Qed.

(** One event keeps the invariant, the limit and the ticker's period and
    start; the clock and the ticks received do not go back; and a token is
    only gained with a tick. *)
Lemma step_spec (sl sl' : sourceLimiter) (e : event) :
  step sl e = Some sl' -> limiterInv sl ->
  limiterInv sl'
  /\ limit sl' = limit sl
  /\ period (refill sl') = period (refill sl)
  /\ started (refill sl') = started (refill sl)
  /\ clock sl <= clock sl'
  /\ delivered (refill sl) <= delivered (refill sl')
  /\ tokens sl' + (if isAcquire e then 1 else 0)
     <= tokens sl + (delivered (refill sl') - delivered (refill sl)).
Proof.
  unfold limiterInv. intros Hstep (Ht & Hp & Hd & Hc).
  destruct e as [dt| |]; simpl in Hstep.
  - destruct (Z.leb_spec 0 dt); [|discriminate].
    injection Hstep as <-; simpl. repeat split; lia.
  - destruct (negb (stopped (refill sl))); simpl in Hstep; [|discriminate].
    destruct (Z.leb_spec
      (started (refill sl) + (delivered (refill sl) + 1) * period (refill sl)) (clock sl));
      [|discriminate].
    injection Hstep as <-; simpl.
    destruct (Z.ltb_spec (tokens sl) (limit sl)); repeat split; lia.
  - destruct (Z.ltb_spec 0 (tokens sl)); [|discriminate].
    injection Hstep as <-; simpl. repeat split; lia.
Qed.

Lemma exec_spec (es : list event) :
  forall sl sl' : sourceLimiter,
    exec sl es = Some sl' -> limiterInv sl ->
    limiterInv sl'
    /\ limit sl' = limit sl
    /\ period (refill sl') = period (refill sl)
    /\ started (refill sl') = started (refill sl)
    /\ clock sl <= clock sl'
    /\ delivered (refill sl) <= delivered (refill sl')
    /\ tokens sl' + acquisitions es
       <= tokens sl + (delivered (refill sl') - delivered (refill sl)).
Proof.
  induction es as [|e r IH]; intros sl sl' Hexec Hinv; simpl in Hexec.
  - injection Hexec as <-. unfold acquisitions; simpl.
    split; [exact Hinv|]. repeat split; lia.
  - destruct (step sl e) as [sl1|] eqn:Hstep; [|discriminate].
    destruct (step_spec _ _ _ Hstep Hinv) as (Hi1 & Hl1 & Hp1 & Hs1 & Hc1 & Hd1 & Ht1).
    destruct (IH _ _ Hexec Hi1) as (Hi2 & Hl2 & Hp2 & Hs2 & Hc2 & Hd2 & Ht2).
    assert (Hacq : acquisitions (e :: r) = (if isAcquire e then 1 else 0) + acquisitions r).
    { unfold acquisitions; simpl. destruct (isAcquire e); simpl; lia. }
    rewrite Hacq. split; [exact Hi2|]. repeat split; try congruence; lia.
Qed.

(** As many receives as there are tokens go through without any time
    passing. *)
Lemma exec_acquire_all (n : nat) :
  forall sl : sourceLimiter,
    Z.of_nat n <= tokens sl ->
    exists sl', exec sl (repeat Acquire n) = Some sl'
                /\ tokens sl' = tokens sl - Z.of_nat n /\ clock sl' = clock sl.
Proof.
  induction n as [|n IH]; intros sl Hn.
  - exists sl. simpl. repeat split; lia.
  - simpl. destruct (Z.ltb_spec 0 (tokens sl)); [|lia].
    destruct (IH {| tokens := tokens sl - 1; refill := refill sl; limit := limit sl;
                    duration := duration sl; clock := clock sl |}) as (sl' & He & Ht & Hc).
    { simpl. lia. }
    exists sl'. simpl in *. repeat split; [exact He | lia | exact Hc].
Qed.

(** C5. A limiter is made at time [now] with capacity [N > 0] and then
    runs through any events. It starts with exactly [N] tokens; it never
    holds more than [N]; a tick that finds it full leaves it full; [N]
    receives go through at once, with no time passing; and when more than
    [N] receives have gone through, at least one refill interval [60s / N]
    has passed since the creation. *)
Theorem limiter_bounded_and_paced (now N : Z) (sl0 sl : sourceLimiter) (es : list event)
  (HN : 0 < N) (Hnew : newLimiter now N = Some sl0) (Hrun : exec sl0 es = Some sl) :
  tokens sl0 = N
  /\ 0 <= tokens sl <= N
  /\ (forall sl', tokens sl = N -> step sl Tick = Some sl' -> tokens sl' = N)
  /\ (exists sl', exec sl0 (repeat Acquire (Z.to_nat N)) = Some sl'
                  /\ tokens sl' = 0 /\ clock sl' = now)
  /\ (N < acquisitions es -> now + Minute / N <= clock sl).
Proof.
  destruct (newLimiter_spec _ _ _ Hnew) as (Ht0 & Hl0 & Hc0 & Hs0 & Hd0 & Hp0 & _ & Hinv0).
  destruct (exec_spec _ _ _ Hrun Hinv0) as (Hinv & Hl & Hp & Hs & Hc & Hd & Ht).
  destruct Hinv as (Htok & Hper & Hdel & Hclk).
  split; [exact Ht0|]. split; [lia|]. split; [|split].
  - intros sl' Hfull Hstep. simpl in Hstep.
    destruct (negb (stopped (refill sl)) && _); [|discriminate].
    injection Hstep as <-; simpl.
    destruct (Z.ltb_spec (tokens sl) (limit sl)); lia.
  - destruct (exec_acquire_all (Z.to_nat N) sl0) as (sl' & He & Ht' & Hc'); [lia|].
    exists sl'. repeat split; [exact He | lia | lia].
  - intros Hmore.
    assert (1 <= delivered (refill sl)) by lia.
    rewrite Hs, Hp, Hs0, Hp0 in Hclk. nia.
Qed.

(** The theorem for a limiter of 60 requests per minute made at time 0:
    sixty receives, then a second passes, a tick, and one more receive. *)
Lemma limiter_of_60_paced :
  let sl0 := {| tokens := 60;
                refill := {| period := 1000000000; started := 0; delivered := 0;
                             stopped := false |};
                limit := 60; duration := Minute; clock := 0 |} in
  let es := repeat Acquire 60 ++ [Elapse 1000000000; Tick; Acquire] in
  let sl := {| tokens := 0;
               refill := {| period := 1000000000; started := 0; delivered := 1;
                            stopped := false |};
               limit := 60; duration := Minute; clock := 1000000000 |} in
  newLimiter 0 60 = Some sl0 /\ exec sl0 es = Some sl /\ 60 < acquisitions es
  /\ 0 + Minute / 60 <= clock sl.
Proof.
  intros sl0 es sl.
  assert (Hnew : newLimiter 0 60 = Some sl0) by reflexivity.
  assert (Hrun : exec sl0 es = Some sl) by reflexivity.
  assert (Hacq : 60 < acquisitions es) by (vm_compute; reflexivity).
  split; [exact Hnew|]. split; [exact Hrun|]. split; [exact Hacq|].
  apply (limiter_bounded_and_paced 0 60 sl0 sl es); [lia | exact Hnew | exact Hrun | exact Hacq].
Defined.

End RateLimiterClaims.

(** ** The orchestrator *)
Section OrchestratorFacts.
Import models errors sources dedup scraper.
Local Open Scope Z_scope.

Lemma wrap64_int64 (z : Z) : int64 (wrap64 z).
Proof.
  unfold int64, wrap64.
  pose proof (Z.mod_pos_bound (z + 2 ^ 63) (2 ^ 64) ltac:(lia)). lia.
Qed.

Lemma wrap64_id (z : Z) : int64 z -> wrap64 z = z.
Proof.
  unfold int64, wrap64. intros H.
  rewrite Z.mod_small by lia. lia.
Qed.

Lemma wrap64_add_l (a b : Z) : wrap64 (wrap64 a + b) = wrap64 (a + b).
Proof.
  unfold wrap64. f_equal.
  replace ((a + 2 ^ 63) mod 2 ^ 64 - 2 ^ 63 + b + 2 ^ 63)
    with ((a + 2 ^ 63) mod 2 ^ 64 + b) by lia.
  rewrite Z.add_mod_idemp_l by lia. f_equal. lia.
Qed.

(** A task leaves everything but the per-source metrics as it was. *)
Lemma scrapeSource_keeps (ps : PowerScraper) (env : Env) (name : string) :
  let ps' := (scrapeSource ps env name).1 in
  sourceManager ps' = sourceManager ps
  /\ deduplicator ps' = deduplicator ps
  /\ retryConfig ps' = retryConfig ps
  /\ TotalJobsScraped (metrics ps') = TotalJobsScraped (metrics ps)
  /\ TotalJobsSaved (metrics ps') = TotalJobsSaved (metrics ps)
  /\ TotalDuplicates (metrics ps') = TotalDuplicates (metrics ps)
  /\ TotalErrors (metrics ps') = TotalErrors (metrics ps).
Proof.
  unfold scrapeSource.
  destruct (GetSourceConfig (sourceManager ps) name) as [config found].
  destruct (waitErr env name (RateLimit config)); simpl; [repeat split|].
  destruct (attempts _ _ _ _ _ _ _) as [err|jobs [e|]]; simpl; repeat split.
Qed.

(** The result of a task depends on the scraper only through its sources
    and its retry configuration. *)
Lemma scrapeSource_result (ps ps' : PowerScraper) (env : Env) (name : string) :
  sourceManager ps' = sourceManager ps -> retryConfig ps' = retryConfig ps ->
  (scrapeSource ps' env name).2 = (scrapeSource ps env name).2.
Proof.
  intros Hsm Hrc. unfold scrapeSource. rewrite Hsm, Hrc.
  destruct (GetSourceConfig (sourceManager ps) name) as [config found].
  destruct (waitErr env name (RateLimit config)); simpl; [reflexivity|].
  destruct (attempts _ _ _ _ _ _ _) as [err|jobs [e|]]; reflexivity.
Qed.

Lemma resultsFor_indep (ps ps' : PowerScraper) (env : Env)
  (en : gmap string JobSource) (names : list string) :
  sourceManager ps' = sourceManager ps -> retryConfig ps' = retryConfig ps ->
  resultsFor ps' env en names = resultsFor ps env en names.
Proof.
  intros Hsm Hrc. unfold resultsFor.
  induction names as [|name rest IH]; [reflexivity|].
  cbn [omap list_omap]. fold (@omap list _ string ScraperResult).
  rewrite (scrapeSource_result ps ps' env name Hsm Hrc).
  destruct (en !! name); [f_equal|]; exact IH.
Qed.

(** The collection of a result with an error counts the error and adds no
    record; the collection of a result without error runs its batch
    through the deduplicator and adds to the two totals. *)
Lemma collect_spec (ps : PowerScraper) (env : Env) (r : ScraperResult) (allJobs : list Job) :
  let ps' := (collect ps env r allJobs).1 in
  let kept := (RemoveDuplicates (deduplicator ps) (Jobs r)).2 in
  sourceManager ps' = sourceManager ps
  /\ retryConfig ps' = retryConfig ps
  /\ TotalJobsSaved (metrics ps') = TotalJobsSaved (metrics ps)
  /\ if succeeded r then
       deduplicator ps' = (RemoveDuplicates (deduplicator ps) (Jobs r)).1
       /\ (collect ps env r allJobs).2 = allJobs ++ kept
       /\ TotalJobsScraped (metrics ps')
          = wrap64 (TotalJobsScraped (metrics ps) + Z.of_nat (length (Jobs r)))
       /\ TotalDuplicates (metrics ps')
          = wrap64 (TotalDuplicates (metrics ps)
                    + (Z.of_nat (length (Jobs r)) - Z.of_nat (length kept)))
       /\ TotalErrors (metrics ps') = TotalErrors (metrics ps)
     else
       deduplicator ps' = deduplicator ps
       /\ (collect ps env r allJobs).2 = allJobs
       /\ TotalJobsScraped (metrics ps') = TotalJobsScraped (metrics ps)
       /\ TotalDuplicates (metrics ps') = TotalDuplicates (metrics ps)
       /\ TotalErrors (metrics ps') = wrap64 (TotalErrors (metrics ps) + 1).
Proof.
  unfold collect, succeeded.
  destruct (Error r) as [e|]; simpl; [repeat split|].
  destruct (RemoveDuplicates (deduplicator ps) (Jobs r)) as [d kept]; simpl.
  repeat split.
Qed.

Lemma resultsFor_cons (ps : PowerScraper) (env : Env) (en : gmap string JobSource)
  (name : string) (rest : list string) :
  resultsFor ps env en (name :: rest)
  = match en !! name with
    | Some _ => (scrapeSource ps env name).2 :: resultsFor ps env en rest
    | None => resultsFor ps env en rest
    end.
Proof.
  unfold resultsFor. cbn [omap list_omap]. fold (@omap list _ string ScraperResult).
  destruct (en !! name); reflexivity.
Qed.

Lemma fetchedCount_cons (r : ScraperResult) (rs : list ScraperResult) :
  fetchedCount (r :: rs)
  = (if succeeded r then Z.of_nat (length (Jobs r)) else 0) + fetchedCount rs.
Proof.
  unfold fetchedCount, fetchedBatches; simpl.
  destruct (succeeded r); simpl; [|lia].
  rewrite length_app. lia.
Qed.

Lemma failedCount_cons (r : ScraperResult) (rs : list ScraperResult) :
  failedCount (r :: rs) = (if succeeded r then 0 else 1) + failedCount rs.
Proof.
  unfold failedCount; simpl. destruct (succeeded r); simpl; lia.
Qed.

(** The tasks and the collection of their results: the batches without
    error go through the deduplicator one after the other, and the totals
    grow by the counts of the results. *)
Lemma runTasks_spec (env : Env) (en : gmap string JobSource) (names : list string) :
  forall (ps : PowerScraper) (allJobs : list Job),
    let rs := resultsFor ps env en names in
    let out := runTasks ps env en names allJobs in
    let seq := RemoveDuplicatesSeq (deduplicator ps) (fetchedBatches rs) in
    sourceManager out.1 = sourceManager ps
    /\ retryConfig out.1 = retryConfig ps
    /\ TotalJobsSaved (metrics out.1) = TotalJobsSaved (metrics ps)
    /\ deduplicator out.1 = seq.1
    /\ out.2 = allJobs ++ seq.2
    /\ (int64 (TotalJobsScraped (metrics ps)) ->
        TotalJobsScraped (metrics out.1)
        = wrap64 (TotalJobsScraped (metrics ps) + fetchedCount rs))
    /\ (int64 (TotalErrors (metrics ps)) ->
        TotalErrors (metrics out.1) = wrap64 (TotalErrors (metrics ps) + failedCount rs))
    /\ (int64 (TotalDuplicates (metrics ps)) ->
        TotalDuplicates (metrics out.1)
        = wrap64 (TotalDuplicates (metrics ps)
                  + (fetchedCount rs - Z.of_nat (length seq.2)))).
Proof.
  induction names as [|name rest IH]; intros ps allJobs; cbv zeta.
  - simpl. rewrite app_nil_r. unfold fetchedCount, failedCount; simpl.
    repeat split; try reflexivity; intros Hi; rewrite Z.add_0_r; symmetry;
      apply wrap64_id, Hi.
  - rewrite resultsFor_cons. cbn [runTasks].
    destruct (en !! name) as [src|]; [|apply IH].
    pose proof (scrapeSource_keeps ps env name) as (K1 & K2 & K3 & K4 & K5 & K6 & K7).
    destruct (scrapeSource ps env name) as [ps1 r]. cbn [fst snd] in *.
    pose proof (collect_spec ps1 env r allJobs) as (C1 & C2 & C3 & C4).
    destruct (collect ps1 env r allJobs) as [ps2 all']. cbn [fst snd] in *.
    specialize (IH ps2 all'). cbv zeta in IH.
    rewrite (resultsFor_indep ps ps2) in IH by congruence.
    destruct IH as (I1 & I2 & I3 & I4 & I5 & I6 & I7 & I8).
    rewrite fetchedCount_cons, failedCount_cons.
    unfold fetchedBatches in *. cbn [List.filter].
    destruct (succeeded r).
    + destruct C4 as (D1 & D2 & D3 & D4 & D5).
      cbn [map RemoveDuplicatesSeq]. rewrite K2 in *.
      destruct (RemoveDuplicates (deduplicator ps) (Jobs r)) as [d1 kept1].
      cbn [fst snd] in *. rewrite D1 in *.
      destruct (RemoveDuplicatesSeq d1 _) as [d2 kept2]. cbn [fst snd] in *.
      split; [congruence|]. split; [congruence|]. split; [congruence|].
      split; [exact I4|]. split; [rewrite I5, D2, app_assoc; reflexivity|].
      split; [|split].
      * intros Hi. rewrite I6 by (rewrite D3; apply wrap64_int64).
        rewrite D3, K4, wrap64_add_l. f_equal. lia.
      * intros Hi. rewrite I7 by (rewrite D5, K7; exact Hi).
        rewrite D5, K7. f_equal.
      * intros Hi. rewrite I8 by (rewrite D4; apply wrap64_int64).
        rewrite D4, K6, wrap64_add_l, length_app. f_equal. lia.
    + destruct C4 as (D1 & D2 & D3 & D4 & D5). rewrite K2 in *. rewrite D1 in *.
      split; [congruence|]. split; [congruence|]. split; [congruence|].
      split; [exact I4|]. split; [rewrite I5, D2; reflexivity|].
      split; [|split].
      * intros Hi. rewrite I6 by (rewrite D3, K4; exact Hi).
        rewrite D3, K4. f_equal.
      * intros Hi. rewrite I7 by (rewrite D5; apply wrap64_int64).
        rewrite D5, K7, wrap64_add_l. f_equal. lia.
      * intros Hi. rewrite I8 by (rewrite D4, K6; exact Hi).
        rewrite D4, K6. f_equal.
Qed.

End OrchestratorFacts.

Section SavingFacts.
Import models errors sources dedup scraper.
Context {St : Type} (store : Store St).

(** The loop of [saveJobs] reaches every record: the batches put end to
    end are the records in their order. *)
Lemma batchesOf_concat (fuel : nat) :
  forall jobs : list Job, (length jobs <= fuel)%nat -> concat (batchesOf fuel jobs) = jobs.
Proof.
  induction fuel as [|fuel IH]; intros jobs Hlen.
  - destruct jobs; [reflexivity | simpl in Hlen; lia].
  - destruct jobs as [|job rest]; [reflexivity|].
    change (batchesOf (S fuel) (job :: rest))
      with (firstn batchSize (job :: rest) :: batchesOf fuel (skipn batchSize (job :: rest))).
    cbn [concat]. rewrite IH.
    + apply firstn_skipn.
    + rewrite length_skipn. unfold batchSize. simpl in *. lia.
Qed.

Lemma saveEach_submitted (batch : list Job) :
  forall st : St, submitted (saveEach store batch st).2 = batch.
Proof.
  induction batch as [|job rest IH]; intros st; simpl; [reflexivity|].
  destruct (SaveJob store job st) as [e st1].
  specialize (IH st1). destruct (saveEach store rest st1) as [st2 log].
  simpl in *. by rewrite IH.
Qed.

(** [saveJobs] returns the first cancellation it sees after a batch, and
    nothing else: what the storage answers is not returned. *)
Lemma saveBatches_returned (env : Env) (batches : list (list Job)) :
  forall (i : nat) (st : St),
    (saveBatches store env i batches st).1.1 = firstCtxErr env i (length batches).
Proof.
  induction batches as [|batch rest IH]; intros i st; simpl; [reflexivity|].
  destruct (SaveJobs store batch st) as [err st1].
  destruct (match err with Some _ => saveEach store batch st1 | None => (st1, []) end)
    as [st2 log].
  destruct (saveCtxErr env i) as [ctxErr|]; [reflexivity|].
  specialize (IH (S i) st2).
  destruct (saveBatches store env (S i) rest st2) as [[r st3] log']. exact IH.
Qed.

(** Only records of the batches are handed to the storage. *)
Lemma saveBatches_submitted (env : Env) (batches : list (list Job)) :
  forall (i : nat) (st : St) (s : Job),
    In s (submitted (saveBatches store env i batches st).2) -> In s (concat batches).
Proof.
  induction batches as [|batch rest IH]; intros i st s; simpl; [tauto|].
  destruct (SaveJobs store batch st) as [err st1].
  assert (Hlog : forall st2 log,
    match err with Some _ => saveEach store batch st1 | None => (st1, []) end = (st2, log) ->
    forall x, In x (submitted log) -> In x batch).
  { intros st2 log Heq x Hx. destruct err.
    - pose proof (saveEach_submitted batch st1) as Hs. rewrite Heq in Hs. simpl in Hs.
      by rewrite Hs in Hx.
    - injection Heq as _ <-. destruct Hx. }
  destruct (match err with Some _ => saveEach store batch st1 | None => (st1, []) end)
    as [st2 log].
  specialize (Hlog st2 log eq_refl).
  destruct (saveCtxErr env i) as [ctxErr|].
  - simpl. unfold submitted; simpl. fold (submitted log).
    rewrite !in_app_iff. intros [H|H]; [by left | left; by apply Hlog].
  - specialize (IH (S i) st2 s).
    destruct (saveBatches store env (S i) rest st2) as [[r st3] log'].
    simpl in *. unfold submitted; simpl.
    rewrite flat_map_app. fold (submitted log) (submitted log').
    rewrite !in_app_iff. intros [H|[H|H]]; [by left | left; by apply Hlog | right; by apply IH].
Qed.

Lemma saveJobs_submitted (env : Env) (jobs : list Job) (st : St) (s : Job) :
  In s (submitted (saveJobs store env jobs st).2) -> In s jobs.
Proof.
  unfold saveJobs. intros H. apply saveBatches_submitted in H.
  by rewrite batchesOf_concat in H.
Qed.

(** What a cycle returns. *)
Lemma ScrapeAllSources_returned (ps : PowerScraper) (env : Env) (st : St) :
  returned (ScrapeAllSources store ps env st)
  = if (size (GetEnabledSources (sourceManager ps)) =? 0)%nat
    then Some (Errorf "no enabled sources found")
    else match firstCtxErr env 0
                 (length (batchesOf (length (collectAll ps env).2) (collectAll ps env).2)) with
         | Some ctxErr => Some (Wrapf "failed to save jobs: %w" ctxErr)
         | None => None
         end.
Proof.
  unfold ScrapeAllSources.
  destruct (size (GetEnabledSources (sourceManager ps)) =? 0)%nat; [reflexivity|].
  destruct (collectAll ps env) as [ps1 allJobs]. cbn [snd].
  destruct (Nat.ltb_spec 0 (length allJobs)) as [Hpos|Hzero].
  - pose proof (saveBatches_returned env (batchesOf (length allJobs) allJobs) 0 st) as Hr.
    unfold saveJobs.
    destruct (saveBatches store env 0 (batchesOf (length allJobs) allJobs) st)
      as [[r st'] log]. simpl in Hr. rewrite <- Hr. by destruct r.
  - destruct allJobs; [reflexivity | simpl in Hzero; lia].
Qed.

(** The records a cycle hands to the storage are among those it kept. *)
Lemma ScrapeAllSources_submitted (ps : PowerScraper) (env : Env) (st : St) (s : Job) :
  In s (submitted (calls (ScrapeAllSources store ps env st))) -> In s (collectAll ps env).2.
Proof.
  unfold ScrapeAllSources.
  destruct (size (GetEnabledSources (sourceManager ps)) =? 0)%nat; [simpl; tauto|].
  destruct (collectAll ps env) as [ps1 allJobs]. cbn [snd].
  destruct (0 <? length allJobs)%nat; [|simpl; tauto].
  pose proof (saveJobs_submitted env allJobs st s) as Hs.
  destruct (saveJobs store env allJobs st) as [[r st'] log].
  destruct r; exact Hs.
Qed.

(** The deduplicator and the configuration after a cycle are those left
    by the collection. *)
Lemma ScrapeAllSources_scraper (ps : PowerScraper) (env : Env) (st : St) :
  let ps' := scraper (ScrapeAllSources store ps env st) in
  deduplicator ps' = deduplicator (collectAll ps env).1
  /\ sourceManager ps' = sourceManager ps
  /\ retryConfig ps' = retryConfig ps.
Proof.
  pose proof (runTasks_spec env (GetEnabledSources (sourceManager ps)) (order env) ps [])
    as (R1 & R2 & _ & R4 & _).
  fold (collectAll ps env) in R1, R2, R4.
  unfold ScrapeAllSources.
  destruct (size (GetEnabledSources (sourceManager ps)) =? 0)%nat eqn:Hsize.
  - simpl. split; [|done].
    rewrite R4. unfold resultsFor.
    apply Nat.eqb_eq, map_size_empty_iff in Hsize. rewrite Hsize.
    clear. induction (order env) as [|n r IH]; [reflexivity|].
    cbn [omap list_omap]. rewrite lookup_empty. exact IH.
  - destruct (collectAll ps env) as [ps1 allJobs]. cbn [fst] in *.
    destruct (0 <? length allJobs)%nat; [|simpl; done].
    destruct (saveJobs store env allJobs st) as [[r st'] log].
    destruct r; simpl; done.
Qed.

End SavingFacts.

Section CycleFacts.
Import models errors sources dedup scraper.
Context {St : Type} (store : Store St).

Lemma RemoveDuplicates_kept_In (jobs : list Job) :
  forall (d : Deduplicator) (j : Job), In j (RemoveDuplicates d jobs).2 -> In j jobs.
Proof.
  induction jobs as [|job rest IH]; intros d j; simpl; [tauto|].
  destruct (seen d (generateJobHash job)); simpl.
  - intros H. right. by apply (IH d).
  - specialize (IH (markSeen d (generateJobHash job)) j).
    destruct (RemoveDuplicates (markSeen d (generateJobHash job)) rest) as [d' u].
    simpl in *. intros [H|H]; [by left | right; by apply IH].
Qed.

Lemma withKey_nil (h : string) (l : list Job) (s : Job) :
  withKey h l = [] -> In s l -> generateJobHash s <> h.
Proof.
  unfold withKey. intros Hnil Hin Hh.
  assert (Hs : In s (List.filter (hasKey h) l)).
  { apply filter_In. split; [exact Hin | by apply hasKey_true]. }
  rewrite Hnil in Hs. destruct Hs.
Qed.

(** The collection of a cycle, in terms of the deduplicator alone. *)
Lemma collectAll_dedup (ps : PowerScraper) (env : Env) :
  deduplicator (collectAll ps env).1
  = (RemoveDuplicates (deduplicator ps) (concat (fetchedBatches (results ps env)))).1
  /\ (collectAll ps env).2
     = (RemoveDuplicates (deduplicator ps) (concat (fetchedBatches (results ps env)))).2.
Proof.
  pose proof (runTasks_spec env (GetEnabledSources (sourceManager ps)) (order env) ps [])
    as (_ & _ & _ & R4 & R5 & _).
  fold (collectAll ps env) (results ps env) in R4, R5.
  rewrite RemoveDuplicatesSeq_concat in R4, R5. by split.
Qed.

(** A key that has been seen stays seen through a cycle: nothing resets
    the deduplicator. *)
Lemma cycle_keeps_seen (ps : PowerScraper) (env : Env) (st : St) (h : string) :
  seen (deduplicator ps) h = true ->
  seen (deduplicator (scraper (ScrapeAllSources store ps env st))) h = true.
Proof.
  intros Hseen.
  destruct (ScrapeAllSources_scraper store ps env st) as (-> & _).
  destruct (collectAll_dedup ps env) as (-> & _).
  by rewrite RemoveDuplicates_seen, Hseen.
Qed.

Lemma cycles_keep_seen (envs : list Env) :
  forall (ps : PowerScraper) (st : St) (h : string),
    seen (deduplicator ps) h = true ->
    seen (deduplicator (afterCycles store ps st envs).1) h = true.
Proof.
  induction envs as [|env rest IH]; intros ps st h Hseen; simpl; [exact Hseen|].
  apply IH. by apply cycle_keeps_seen.
Qed.

(** The key of a record kept in a cycle is seen after the cycle. *)
Lemma kept_is_seen (ps : PowerScraper) (env : Env) (st : St) (j : Job) :
  In j (collectAll ps env).2 ->
  seen (deduplicator (scraper (ScrapeAllSources store ps env st))) (generateJobHash j) = true.
Proof.
  intros Hin.
  destruct (ScrapeAllSources_scraper store ps env st) as (-> & _).
  destruct (collectAll_dedup ps env) as (-> & Hk). rewrite Hk in Hin.
  apply RemoveDuplicates_kept_In in Hin.
  rewrite RemoveDuplicates_seen.
  rewrite (existsb_hasKey_In _ _ j Hin eq_refl). apply orb_true_r.
Qed.

(** No record with a key already seen is kept by a cycle. *)
Lemma seen_is_not_kept (ps : PowerScraper) (env : Env) (h : string) (s : Job) :
  seen (deduplicator ps) h = true ->
  In s (collectAll ps env).2 -> generateJobHash s <> h.
Proof.
  intros Hseen Hin. destruct (collectAll_dedup ps env) as (_ & Hk).
  rewrite Hk in Hin. refine (withKey_nil h _ s _ Hin).
  by rewrite RemoveDuplicates_withKey, Hseen.
Qed.

End CycleFacts.

Section CycleClaims.
Import models errors sources dedup scraper.

(** C10. A scraper runs a cycle in which the record [j] is kept, then any
    number of further cycles, then one more. No cycle resets the
    deduplicator: every key that was seen stays seen. So in the last
    cycle a record [j'] with the normalised triple of [j] is a duplicate
    for the deduplicator, no record with the key of [j] is kept, and none
    is handed to the storage. *)
Theorem kept_record_is_dropped_in_later_cycles
  {St : Type} (store : Store St) (ps : PowerScraper) (st : St)
  (env1 : Env) (between : list Env) (env2 : Env) (j j' : Job)
  (Hkept : In j (collectAll ps env1).2)
  (Hsame : normalized j' = normalized j) :
  let o1 := ScrapeAllSources store ps env1 st in
  let later := afterCycles store (scraper o1) (storage o1) between in
  let o2 := ScrapeAllSources store later.1 env2 later.2 in
  (forall h, seen (deduplicator ps) h = true -> seen (deduplicator (scraper o2)) h = true)
  /\ IsDuplicate (deduplicator later.1) j' = true
  /\ ~ In j' (collectAll later.1 env2).2
  /\ (forall s, In s (collectAll later.1 env2).2 -> generateJobHash s <> generateJobHash j)
  /\ (forall s, In s (submitted (calls o2)) -> generateJobHash s <> generateJobHash j).
Proof.
  intros o1 later o2.
  assert (Hseen : seen (deduplicator later.1) (generateJobHash j) = true).
  { apply cycles_keep_seen. by apply kept_is_seen. }
  assert (Hnot : forall s, In s (collectAll later.1 env2).2 ->
                           generateJobHash s <> generateJobHash j).
  { intros s Hs. by apply (seen_is_not_kept later.1 env2). }
  split; [|split; [|split; [|split]]].
  - intros h Hh. apply cycle_keeps_seen. apply cycles_keep_seen.
    by apply cycle_keeps_seen.
  - unfold IsDuplicate. by rewrite (normalized_hash _ _ Hsame).
  - intros Hin. apply (Hnot j' Hin). by apply normalized_hash.
  - exact Hnot.
  - intros s Hs. apply Hnot. by apply (ScrapeAllSources_submitted store) in Hs.
Qed.

(** C4, as the code has it. A cycle returns an error in two cases only:
    there is no enabled source, or the context is found cancelled after
    one of the batches that [saveJobs] writes. What the storage answers
    is never returned, so the same cycle over any other storage returns
    the same; and a result with an error only counts an error and adds no
    record. *)
Theorem cycle_error_is_no_source_or_cancellation
  {St : Type} (store : Store St) (ps : PowerScraper) (env : Env) (st : St) :
  let o := ScrapeAllSources store ps env st in
  let allJobs := (collectAll ps env).2 in
  returned o
  = (if (size (GetEnabledSources (sourceManager ps)) =? 0)%nat
     then Some (Errorf "no enabled sources found")
     else match firstCtxErr env 0 (length (batchesOf (length allJobs) allJobs)) with
          | Some ctxErr => Some (Wrapf "failed to save jobs: %w" ctxErr)
          | None => None
          end)
  /\ (forall (St' : Type) (store' : Store St') (st' : St'),
        returned (ScrapeAllSources store' ps env st') = returned o)
  /\ (forall (r : ScraperResult) (collected : list Job),
        succeeded r = false ->
        collect ps env r collected = (withMetrics ps (countError (metrics ps)), collected)).
Proof.
  intros o allJobs. subst o allJobs. split; [|split].
  - apply ScrapeAllSources_returned.
  - intros St' store' st'. by rewrite !ScrapeAllSources_returned.
  - intros r collected Hr. unfold collect. unfold succeeded in Hr.
    destruct (Error r); [reflexivity | discriminate].
Qed.

End CycleClaims.

Section MetricsFacts.
Import models errors sources dedup scraper.
Local Open Scope Z_scope.






End MetricsFacts.

Section MetricsClaims.
Import models errors sources dedup scraper examples.
Local Open Scope Z_scope.




End MetricsClaims.

Section CrossSourceClaims.
Import models errors sources dedup scraper examples.

(** C2, as the code has it. The collecting loop runs every batch through
    the one deduplicator of the scraper, so a batch is checked against the
    batches collected before it, whatever source they came from. When two
    results without error are collected one after the other and a record
    of the second has the normalised triple of a record of the first, no
    record with that key is kept from the second batch; if the key was new
    before the first batch, exactly one record with it is kept from the
    two batches, the first of the first batch. *)
Theorem later_batch_is_checked_against_earlier_batches
  (ps : PowerScraper) (env : Env) (r1 r2 : ScraperResult) (collected : list Job)
  (j1 j2 : Job)
  (Hok1 : succeeded r1 = true) (Hok2 : succeeded r2 = true)
  (Hin1 : In j1 (Jobs r1)) (Hin2 : In j2 (Jobs r2))
  (Hsame : normalized j1 = normalized j2) :
  let c1 := collect ps env r1 collected in
  let c2 := collect c1.1 env r2 c1.2 in
  exists kept1 kept2,
    c1.2 = collected ++ kept1
    /\ c2.2 = collected ++ kept1 ++ kept2
    /\ withKey (generateJobHash j1) kept2 = []
    /\ ~ In j2 kept2
    /\ (IsDuplicate (deduplicator ps) j1 = false ->
        withKey (generateJobHash j1) (kept1 ++ kept2)
        = option_list (firstWithKey (generateJobHash j1) (Jobs r1))
        /\ length (withKey (generateJobHash j1) (kept1 ++ kept2)) = 1%nat).
Proof.
  intros c1 c2.
  pose proof (collect_spec ps env r1 collected) as (_ & _ & _ & A).
  rewrite Hok1 in A. destruct A as (A1 & A2 & _). fold c1 in A1, A2.
  pose proof (collect_spec c1.1 env r2 c1.2) as (_ & _ & _ & B).
  rewrite Hok2 in B. destruct B as (B1 & B2 & _). fold c2 in B1, B2.
  rewrite A1 in B2.
  set (d1 := (RemoveDuplicates (deduplicator ps) (Jobs r1)).1) in *.
  set (kept1 := (RemoveDuplicates (deduplicator ps) (Jobs r1)).2) in *.
  set (kept2 := (RemoveDuplicates d1 (Jobs r2)).2) in *.
  assert (Hseen : seen d1 (generateJobHash j1) = true).
  { unfold d1. rewrite RemoveDuplicates_seen.
    rewrite (existsb_hasKey_In _ _ j1 Hin1 eq_refl). apply orb_true_r. }
  assert (Hnil : withKey (generateJobHash j1) kept2 = []).
  { unfold kept2. by rewrite RemoveDuplicates_withKey, Hseen. }
  exists kept1, kept2.
  split; [exact A2|]. split; [rewrite B2, A2, app_assoc; reflexivity|].
  split; [exact Hnil|]. split.
  - intros Hk. apply (withKey_nil _ _ _ Hnil Hk). symmetry. by apply normalized_hash.
  - intros Hnew. unfold IsDuplicate in Hnew.
    assert (Hk : withKey (generateJobHash j1) (kept1 ++ kept2)
                 = option_list (firstWithKey (generateJobHash j1) (Jobs r1))).
    { unfold withKey. rewrite List.filter_app.
      fold (withKey (generateJobHash j1) kept1) (withKey (generateJobHash j1) kept2).
      rewrite Hnil, app_nil_r. unfold kept1.
      by rewrite RemoveDuplicates_withKey, Hnew. }
    split; [exact Hk|]. rewrite Hk.
    destruct (firstWithKey_In (Jobs r1) j1 Hin1) as [j0 ->]. reflexivity.
Qed.

(** The theorem at the two listings of one posting: RemoteOK's is
    collected first, and Remotive's is not kept. *)
Lemma second_listing_is_dropped :
  let r1 := {| Source := "RemoteOK"; Jobs := [jobA]; Error := None; Duration := 0 |} in
  let r2 := {| Source := "Remotive"; Jobs := [jobA']; Error := None; Duration := 0 |} in
  exists kept1 kept2,
    (collect (collect ps0 sameJobTwice r1 []).1 sameJobTwice r2
             (collect ps0 sameJobTwice r1 []).2).2 = [] ++ kept1 ++ kept2
    /\ ~ In jobA' kept2.
Proof.
  intros r1 r2.
  destruct (later_batch_is_checked_against_earlier_batches
              ps0 sameJobTwice r1 r2 [] jobA jobA'
              eq_refl eq_refl (or_introl eq_refl) (or_introl eq_refl) eq_refl)
    as (kept1 & kept2 & _ & H2 & _ & H4 & _).
  exists kept1, kept2. split; [exact H2 | exact H4].
Defined.

(** C2, the claim as stated fails. In a cycle in which RemoteOK and
    Remotive each bring their listing of one posting, in two batches, the
    two records have the same normalised triple, and only the record of
    the batch that arrives first survives the exact-hash pass. *)
Lemma same_posting_from_two_sources_survives_once :
  wellScheduled ps0 sameJobTwice
  /\ map Jobs (results ps0 sameJobTwice) = [[jobA]; [jobA']]
  /\ map Source (results ps0 sameJobTwice) = ["RemoteOK"; "Remotive"]
  /\ normalized jobA' = normalized jobA
  /\ (collectAll ps0 sameJobTwice).2 = [jobA]
  /\ ~ In jobA' (collectAll ps0 sameJobTwice).2.
Proof.
  split; [|split; [|split; [|split; [|split]]]].
  - unfold wellScheduled.
    change (map fst (map_to_list (GetEnabledSources (sourceManager ps0))))
      with (order sameJobTwice). reflexivity.
  - vm_compute. reflexivity.
  - vm_compute. reflexivity.
  - vm_compute. reflexivity.
  - vm_compute. reflexivity.
  - vm_compute. intros [H|[]]. discriminate H.
Qed.

(** The theorem of the later cycles at the two cycles of the example: the
    record of Remotive kept in the first cycle is not kept again in the
    second. *)
Lemma jobC_is_not_kept_again :
  In jobC (collectAll ps0 firstCycle).2
  /\ ~ In jobC
       (collectAll (scraper (ScrapeAllSources acceptAll ps0 firstCycle tt)) secondCycle).2.
Proof.
  assert (Hkept : In jobC (collectAll ps0 firstCycle).2).
  { vm_compute. right. right. left. reflexivity. }
  split; [exact Hkept|].
  pose proof (kept_record_is_dropped_in_later_cycles
                acceptAll ps0 tt firstCycle [] secondCycle jobC jobC Hkept eq_refl) as H.
  cbv zeta in H. destruct H as (_ & _ & H & _). exact H.
Defined.

(** C4, the claim as stated fails in both directions. With two enabled
    sources of which one fails and a storage that rejects the batch write
    and the write of the record on its own, the cycle returns no error;
    and with a storage that accepts the batch, the cycle returns an error
    when the context is cancelled while the batch is saved. *)
Lemma rejected_writes_are_not_returned_and_cancellation_is :
  (let o := ScrapeAllSources rejectAll ps0 remotiveDown tt in
   size (GetEnabledSources (sourceManager ps0)) = 2%nat
   /\ calls o = [SaveJobsCall [jobA]; SaveJobCall jobA]
   /\ SaveJobs rejectAll [jobA] tt = (Some (External "rejected"), tt)
   /\ SaveJob rejectAll jobA tt = (Some (External "rejected"), tt)
   /\ TotalErrors (metrics (scraper o)) = 1%Z
   /\ returned o = None)
  /\ (let o := ScrapeAllSources acceptAll ps0 cancelledWhileSaving tt in
      calls o = [SaveJobsCall [jobA; jobC]]
      /\ SaveJobs acceptAll [jobA; jobC] tt = (None, tt)
      /\ returned o = Some (Wrapf "failed to save jobs: %w" Canceled)).
Proof. vm_compute. repeat split. Qed.

End CrossSourceClaims.

(** * Further properties of the code *)

(** ** The deduplicator: what a pass keeps *)
Section DedupMore.
Import models dedup dedupSpec.

(** A pass over a batch whose keys have all been seen keeps nothing and
    leaves the deduplicator as it was. *)
Lemma RemoveDuplicates_all_seen (jobs : list Job) (d : Deduplicator) :
  (forall j, In j jobs -> seen d (generateJobHash j) = true) ->
  RemoveDuplicates d jobs = (d, []).
Proof.
  induction jobs as [|job rest IH]; intros Hall; [reflexivity|].
  simpl. rewrite (Hall job (or_introl eq_refl)). simpl.
  apply IH. intros j Hj. apply Hall. by right.
Qed.

(** A pass over records with distinct unseen keys keeps them all. *)
Lemma RemoveDuplicates_all_new (jobs : list Job) :
  forall d : Deduplicator,
    NoDup (map generateJobHash jobs) ->
    (forall j, In j jobs -> seen d (generateJobHash j) = false) ->
    (RemoveDuplicates d jobs).2 = jobs.
Proof.
  induction jobs as [|job rest IH]; intros d Hnd Hnew; [reflexivity|].
  simpl. rewrite (Hnew job (or_introl eq_refl)). simpl.
  apply NoDup_cons in Hnd as [Hnotin Hnd].
  specialize (IH (markSeen d (generateJobHash job)) Hnd).
  destruct (RemoveDuplicates (markSeen d (generateJobHash job)) rest) as [d' u].
  simpl in *. f_equal. apply IH. intros j Hj. rewrite seen_markSeen.
  rewrite (Hnew j (or_intror Hj)), orb_false_r.
  apply String.eqb_neq. intros Heq. apply Hnotin.
  rewrite <- Heq. apply list_elem_of_In, in_map, Hj.
Qed.

(** The kept records: a subsequence, with distinct keys, all unseen. *)
Lemma RemoveDuplicates_kept_shape (jobs : list Job) :
  forall d : Deduplicator,
    sublist (RemoveDuplicates d jobs).2 jobs
    /\ NoDup (map generateJobHash (RemoveDuplicates d jobs).2)
    /\ (forall j, In j (RemoveDuplicates d jobs).2 -> seen d (generateJobHash j) = false).
Proof.
  induction jobs as [|job rest IH]; intros d; simpl.
  - repeat split; [constructor | constructor | intros j []].
  - destruct (seen d (generateJobHash job)) eqn:Hs; simpl.
    + destruct (IH d) as (I1 & I2 & I3). repeat split; [by constructor | done | done].
    + destruct (IH (markSeen d (generateJobHash job))) as (I1 & I2 & I3).
      pose proof (RemoveDuplicates_withKey rest (markSeen d (generateJobHash job))
                    (generateJobHash job)) as Hw.
      rewrite seen_markSeen, String.eqb_refl in Hw. simpl in Hw.
      destruct (RemoveDuplicates (markSeen d (generateJobHash job)) rest) as [d' u].
      simpl in *. repeat split.
      * by constructor.
      * apply NoDup_cons. split; [|exact I2].
        intros Hin. apply list_elem_of_In, in_map_iff in Hin as (j & Hj & Hin).
        by apply (withKey_nil _ _ _ Hw Hin).
      * intros j [<-|Hj]; [exact Hs|].
        specialize (I3 j Hj). rewrite seen_markSeen in I3.
        by apply orb_false_elim in I3 as [_ ?].
Qed.

(** X2. What [RemoveDuplicates] keeps is a subsequence of the batch, in
    the order of the batch, so it is never longer than the batch; no two
    kept records have the same key; and no kept record has a key that was
    seen before the call. In particular an empty batch gives nothing. *)
Theorem RemoveDuplicates_keeps_distinct_new_subsequence
  (jobs : list Job) (d : Deduplicator) :
  sublist (RemoveDuplicates d jobs).2 jobs
  /\ (length (RemoveDuplicates d jobs).2 <= length jobs)%nat
  /\ NoDup (map generateJobHash (RemoveDuplicates d jobs).2)
  /\ (forall j, In j (RemoveDuplicates d jobs).2 -> IsDuplicate d j = false)
  /\ RemoveDuplicates d [] = (d, []).
Proof.
  destruct (RemoveDuplicates_kept_shape jobs d) as (Hsub & Hnd & Hnew).
  split; [exact Hsub|]. split; [by apply sublist_length|].
  split; [exact Hnd|]. split; [exact Hnew | reflexivity].
Qed.

(** X1. A second pass over the same batch keeps nothing and changes
    nothing; and deduplicating, with a fresh deduplicator, what a fresh
    deduplicator kept gives the same records again. *)
Theorem RemoveDuplicates_idempotent (jobs : list Job) (d : Deduplicator) :
  RemoveDuplicates (RemoveDuplicates d jobs).1 jobs = ((RemoveDuplicates d jobs).1, [])
  /\ (RemoveDuplicates NewDeduplicator (RemoveDuplicates NewDeduplicator jobs).2).2
     = (RemoveDuplicates NewDeduplicator jobs).2.
Proof.
  split.
  - apply RemoveDuplicates_all_seen. intros j Hj.
    rewrite RemoveDuplicates_seen.
    rewrite (existsb_hasKey_In _ _ j Hj eq_refl). apply orb_true_r.
  - destruct (RemoveDuplicates_kept_shape jobs NewDeduplicator) as (_ & Hnd & Hnew).
    apply RemoveDuplicates_all_new; [exact Hnd|]. intros j _. reflexivity.
Qed.

(** X3. When every entry of the seen map is [true], a pass adds exactly
    one entry for each record it keeps, and every entry is [true]
    afterwards: [GetSeenCount] grows by the number of kept records. *)
Theorem GetSeenCount_grows_by_kept (jobs : list Job) :
  forall d : Deduplicator,
    allTrue d ->
    GetSeenCount (RemoveDuplicates d jobs).1
    = (GetSeenCount d + length (RemoveDuplicates d jobs).2)%nat
    /\ allTrue (RemoveDuplicates d jobs).1.
Proof.
  induction jobs as [|job rest IH]; intros d Hd; simpl.
  - split; [lia | exact Hd].
  - destruct (seen d (generateJobHash job)) eqn:Hs; simpl; [by apply IH|].
    assert (Hnone : seenJobs d !! generateJobHash job = None).
    { unfold seen in Hs. destruct (seenJobs d !! generateJobHash job) as [b|] eqn:E;
        [|reflexivity]. simpl in Hs. subst b. by apply Hd in E. }
    assert (Hd' : allTrue (markSeen d (generateJobHash job))).
    { intros h b. unfold markSeen; simpl.
      destruct (decide (generateJobHash job = h)) as [->|Hne].
      - rewrite lookup_insert_eq. by intros [= <-].
      - rewrite lookup_insert_ne by done. apply Hd. }
    destruct (IH _ Hd') as (I1 & I2).
    destruct (RemoveDuplicates (markSeen d (generateJobHash job)) rest) as [d' u].
    simpl in *. split; [|exact I2]. rewrite I1.
    unfold GetSeenCount, markSeen; simpl.
    rewrite map_size_insert_None by exact Hnone. lia.
Qed.

(** The theorem at a fresh deduplicator and a batch with one repeated
    posting: two entries for three records. *)
Lemma GetSeenCount_of_three_records :
  GetSeenCount (RemoveDuplicates NewDeduplicator
                  [examples.jobA; examples.jobA'; examples.jobB]).1 = 2%nat.
Proof.
  destruct (GetSeenCount_grows_by_kept
              [examples.jobA; examples.jobA'; examples.jobB] NewDeduplicator) as (H & _).
  - intros h b Hl. cbn in Hl. rewrite lookup_empty in Hl. discriminate.
  - rewrite H. vm_compute. reflexivity.
Defined.

(** X4. [IsDuplicate] tells what the next pass will do with a record: a
    record for which it is true is dropped and the deduplicator stays as
    it is, a record for which it is false is kept; after a pass it is true
    of every record of the batch, and it stays true where it was true. *)
Theorem IsDuplicate_predicts_RemoveDuplicates (d : Deduplicator) (jobs : list Job) (j : Job) :
  (if IsDuplicate d j
   then RemoveDuplicates d [j] = (d, [])
   else (RemoveDuplicates d [j]).2 = [j])
  /\ (In j jobs -> IsDuplicate (RemoveDuplicates d jobs).1 j = true)
  /\ (IsDuplicate d j = true -> IsDuplicate (RemoveDuplicates d jobs).1 j = true).
Proof.
  unfold IsDuplicate. split; [|split].
  - simpl. by destruct (seen d (generateJobHash j)).
  - intros Hin. rewrite RemoveDuplicates_seen.
    rewrite (existsb_hasKey_In _ _ j Hin eq_refl). apply orb_true_r.
  - intros Hs. by rewrite RemoveDuplicates_seen, Hs.
Qed.

End DedupMore.

(** ** The similarity of strings and of jobs *)
Section SimilarityMore.
Import models dedup dedupSpec.

Lemma list_to_set_size_0 (l : list string) :
  (size (list_to_set l : gset string) =? 0)%nat = (length l =? 0)%nat.
Proof.
  destruct l as [|x r]; [reflexivity|]. simpl.
  apply Nat.eqb_neq. intros H. apply size_empty_inv in H.
  assert (x ∈ ({[x]} ∪ list_to_set r : gset string)) as Hx by set_solver.
  rewrite H in Hx. set_solver.
Qed.

(** The loop of [stringSimilarity] in closed form. *)
Lemma stringSimilarity_closed_form (a b : string) :
  stringSimilarity a b
  = if String.eqb a b then 1%float else jaccard (wordSet a) (wordSet b).
Proof.
  unfold stringSimilarity, jaccard, wordSet.
  destruct (String.eqb a b); [reflexivity|].
  rewrite !list_to_set_size_0.
  destruct (String.eqb_spec a "") as [->|Ha]; [reflexivity|].
  destruct (String.eqb_spec b "") as [->|Hb]; [simpl; by rewrite orb_true_r|].
  simpl.
  destruct ((length (Strings.Fields (Strings.ToLower a)) =? 0)%nat
            || (length (Strings.Fields (Strings.ToLower b)) =? 0)%nat) eqn:Hlen;
    [reflexivity|].
  rewrite jaccard_fold.
  set (A := list_to_set (Strings.Fields (Strings.ToLower a)) : gset string).
  set (B := list_to_set (Strings.Fields (Strings.ToLower b)) : gset string).
  assert (HA : size A <> 0%nat).
  { apply orb_false_elim in Hlen as [Hl _]. unfold A.
    apply Nat.eqb_neq. by rewrite list_to_set_size_0. }
  clearbody A B.
  assert (B ∩ A = A ∩ B) as -> by set_solver.
  replace (Z.of_nat (size A) + Z.of_nat (size (B ∖ A)))%Z
    with (Z.of_nat (size (A ∪ B))) by (rewrite size_union_alt; lia).
  replace (0 + Z.of_nat (size (A ∩ B)))%Z with (Z.of_nat (size (A ∩ B))) by lia.
  destruct (Z.eqb_spec (Z.of_nat (size (A ∪ B))) 0) as [H0|_]; [|reflexivity].
  exfalso. rewrite size_union_alt in H0. lia.
Qed.


Lemma jaccard_sym (A B : gset string) : jaccard A B = jaccard B A.
Proof.
  unfold jaccard. rewrite (orb_comm (size B =? 0)%nat).
  assert (B ∩ A = A ∩ B) as -> by set_solver.
  assert (B ∪ A = A ∪ B) as -> by set_solver. reflexivity.
Qed.



(** X7. The similarity of two jobs does not depend on their order. *)
Theorem calculateSimilarity_symmetric (job1 job2 : Job) :
  calculateSimilarity job1 job2 = calculateSimilarity job2 job1.
Proof.
  unfold calculateSimilarity. rewrite !stringSimilarity_closed_form.
  rewrite (String.eqb_sym (Title job2)), (String.eqb_sym (Company job2)),
    (String.eqb_sym (Location job2)).
  rewrite (jaccard_sym (wordSet (Title job2))), (jaccard_sym (wordSet (Company job2))),
    (jaccard_sym (wordSet (Location job2))).
  reflexivity.
Qed.

Lemma FindSimilarJobs_cons (ji : Job) (rest : list Job) (threshold : float) :
  FindSimilarJobs (ji :: rest) threshold
  = flat_map (fun jj =>
      if PrimFloat.leb threshold (calculateSimilarity ji jj)
         && PrimFloat.ltb (calculateSimilarity ji jj) 1
      then [ {| Job1 := ji; Job2 := jj; Similarity := calculateSimilarity ji jj |} ]
      else []) rest
    ++ FindSimilarJobs rest threshold.
Proof. reflexivity. Qed.

(** Every entry is a pair in list order with its similarity in range. *)
Lemma FindSimilarJobs_entries (jobs : list Job) (threshold : float) :
  Forall (fun s =>
            orderedPair jobs (Job1 s) (Job2 s)
            /\ Similarity s = calculateSimilarity (Job1 s) (Job2 s)
            /\ PrimFloat.leb threshold (Similarity s) = true
            /\ PrimFloat.ltb (Similarity s) 1 = true)
         (FindSimilarJobs jobs threshold).
Proof.
  induction jobs as [|ji rest IH]; [constructor|].
  rewrite FindSimilarJobs_cons. apply Forall_app. split.
  - apply Forall_forall. intros s Hs.
    apply list_elem_of_In, in_flat_map in Hs as (jj & Hjj & Hs).
    destruct (PrimFloat.leb threshold (calculateSimilarity ji jj)) eqn:Hle; [|destruct Hs].
    destruct (PrimFloat.ltb (calculateSimilarity ji jj) 1) eqn:Hlt; [|destruct Hs].
    destruct Hs as [<-|[]]. simpl. repeat split; try assumption.
    apply in_split in Hjj as (l2 & l3 & ->). by exists [], l2, l3.
  - eapply Forall_impl; [exact IH|]. simpl.
    intros s ((l1 & l2 & l3 & ->) & H2). split; [|exact H2].
    by exists (ji :: l1), l2, l3.
Qed.

(** X8. Every entry of [FindSimilarJobs] is a pair of records of the
    list, the first at an earlier position than the second, with the
    similarity of the two, which is at least the threshold and below 1;
    and there are at most [n (n - 1) / 2] entries for [n] records, none
    for fewer than two records. *)
Theorem FindSimilarJobs_sound (jobs : list Job) (threshold : float) :
  Forall (fun s =>
            orderedPair jobs (Job1 s) (Job2 s)
            /\ Similarity s = calculateSimilarity (Job1 s) (Job2 s)
            /\ PrimFloat.leb threshold (Similarity s) = true
            /\ PrimFloat.ltb (Similarity s) 1 = true)
         (FindSimilarJobs jobs threshold)
  /\ (2 * length (FindSimilarJobs jobs threshold) <= length jobs * (length jobs - 1))%nat
  /\ ((length jobs < 2)%nat -> FindSimilarJobs jobs threshold = []).
Proof.
  assert (Hcount : (2 * length (FindSimilarJobs jobs threshold)
                    <= length jobs * (length jobs - 1))%nat).
  { induction jobs as [|ji rest IH]; [simpl; lia|].
    rewrite FindSimilarJobs_cons, length_app.
    assert (Hrow : forall l : list Job,
      (length (flat_map (fun jj =>
         if PrimFloat.leb threshold (calculateSimilarity ji jj)
            && PrimFloat.ltb (calculateSimilarity ji jj) 1
         then [ {| Job1 := ji; Job2 := jj; Similarity := calculateSimilarity ji jj |} ]
         else []) l) <= length l)%nat).
    { induction l as [|jj l IHl]; [simpl; lia|]. simpl. rewrite length_app.
      destruct (_ && _); simpl; lia. }
    specialize (Hrow rest). simpl length. nia. }
  split; [apply FindSimilarJobs_entries|]. split; [exact Hcount|].
  intros Hlt. destruct (FindSimilarJobs jobs threshold) as [|s r]; [reflexivity|].
  exfalso. simpl in Hcount. destruct jobs as [|j1 [|j2 r']]; simpl in *; lia.
Qed.

(** X9. Two records with the same title, the same company and the same
    location have similarity exactly 1 (0.5 + 0.3 + 0.2 in float64), so
    [FindSimilarJobs] never lists them as a pair, whatever the
    threshold is. *)
Theorem FindSimilarJobs_leaves_out_exact_matches (jobs : list Job) (threshold : float) :
  (forall j1 j2,
     Title j1 = Title j2 -> Company j1 = Company j2 -> Location j1 = Location j2 ->
     calculateSimilarity j1 j2 = 1%float)
  /\ Forall (fun s =>
               ~ (Title (Job1 s) = Title (Job2 s)
                  /\ Company (Job1 s) = Company (Job2 s)
                  /\ Location (Job1 s) = Location (Job2 s)))
            (FindSimilarJobs jobs threshold).
Proof.
  assert (Hone : forall j1 j2,
     Title j1 = Title j2 -> Company j1 = Company j2 -> Location j1 = Location j2 ->
     calculateSimilarity j1 j2 = 1%float).
  { intros j1 j2 Ht Hc Hl. unfold calculateSimilarity, stringSimilarity.
    rewrite Ht, Hc, Hl, !String.eqb_refl. vm_compute. reflexivity. }
  split; [exact Hone|].
  eapply Forall_impl; [apply FindSimilarJobs_entries|]. simpl.
  intros s (_ & Hsim & _ & Hlt) (Ht & Hc & Hl).
  rewrite Hsim, (Hone _ _ Ht Hc Hl) in Hlt. vm_compute in Hlt. discriminate.
Qed.

End SimilarityMore.

Section SimilarityComplete.
Import models dedup dedupSpec.

(** X10. [FindSimilarJobs] misses no pair: two records at positions
    [i < j] whose similarity is at least the threshold and below 1 are
    listed, with that similarity. *)
Theorem FindSimilarJobs_complete (jobs : list Job) (threshold : float) (j1 j2 : Job)
  (Hpair : orderedPair jobs j1 j2)
  (Hle : PrimFloat.leb threshold (calculateSimilarity j1 j2) = true)
  (Hlt : PrimFloat.ltb (calculateSimilarity j1 j2) 1 = true) :
  In {| Job1 := j1; Job2 := j2; Similarity := calculateSimilarity j1 j2 |}
     (FindSimilarJobs jobs threshold).
Proof.
  destruct Hpair as (l1 & l2 & l3 & ->).
  induction l1 as [|x l1 IH].
  - cbn [app]. rewrite FindSimilarJobs_cons. apply in_or_app. left.
    apply in_flat_map. exists j2. split.
    + apply in_or_app. right. by left.
    + rewrite Hle, Hlt. by left.
  - cbn [app]. rewrite FindSimilarJobs_cons. apply in_or_app. right. exact IH.
Qed.

(** The theorem at two postings of one company whose titles share two
    words of three: similarity 5/6, listed at the threshold 0.75. *)
Lemma FindSimilarJobs_lists_near_duplicate :
  let senior := examples.job "Senior Go Developer" "ACME" "Remote" "" "Remotive" in
  In {| Job1 := examples.jobA; Job2 := senior;
        Similarity := calculateSimilarity examples.jobA senior |}
     (FindSimilarJobs [examples.jobA; examples.jobB; senior] 0.75).
Proof.
  intros senior.
  apply FindSimilarJobs_complete.
  - exists [], [examples.jobB], []. reflexivity.
  - vm_compute. reflexivity.
  - vm_compute. reflexivity.
Defined.

End SimilarityComplete.

(** ** The key of a record *)
Section HashMore.
Import models dedup dedupSpec.
Local Open Scope Z_scope.

Lemma leBytes_spec (n : nat) (x : Z) :
  length (Md5.leBytes n x) = n /\ Forall (fun b => 0 <= b < 256) (Md5.leBytes n x).
Proof.
  unfold Md5.leBytes. split.
  - by rewrite length_map, length_seq.
  - apply Forall_forall. intros b Hb.
    apply list_elem_of_In, in_map_iff in Hb as (i & <- & _).
    apply Z.mod_pos_bound. lia.
Qed.

Lemma Sum_spec (data : list Z) :
  length (Md5.Sum data) = 16%nat /\ Forall (fun b => 0 <= b < 256) (Md5.Sum data).
Proof.
  unfold Md5.Sum.
  destruct (fold_left Md5.block _ Md5.init) as [[[a b] c] d].
  split.
  - rewrite !length_app. by rewrite !(proj1 (leBytes_spec 4 _)).
  - repeat (apply Forall_app; split); apply leBytes_spec.
Qed.

Lemma hexDigit_spec (n : Z) : 0 <= n < 16 -> isLowerHex (Md5.hexDigit n).
Proof.
  intros Hn. rewrite <- (Z2Nat.id n) by lia.
  assert (Hk : (Z.to_nat n < 16)%nat) by lia.
  revert Hk. generalize (Z.to_nat n). intros k Hk.
  unfold isLowerHex.
  do 16 (destruct k as [|k]; [vm_compute; auto 20|]).
  lia.
Qed.

Lemma hex_spec (bs : list Z) :
  Forall (fun b => 0 <= b < 256) bs ->
  String.length (Md5.hex bs) = (2 * length bs)%nat
  /\ Forall isLowerHex (list_ascii_of_string (Md5.hex bs)).
Proof.
  induction 1 as [|b r Hb Hr [IH1 IH2]]; [split; [reflexivity | constructor]|].
  split.
  - simpl. rewrite IH1. lia.
  - simpl. constructor; [|constructor; [|exact IH2]].
    + apply hexDigit_spec. split; [apply Z.div_pos; lia | apply Z.div_lt_upper_bound; lia].
    + apply hexDigit_spec. apply Z.mod_pos_bound. lia.
Qed.

(** X11. The key of every record is a string of 32 characters, each a
    digit or a letter from a to f. *)
Theorem generateJobHash_is_32_hex_digits (job : Job) :
  String.length (generateJobHash job) = 32%nat
  /\ Forall isLowerHex (list_ascii_of_string (generateJobHash job)).
Proof.
  unfold generateJobHash.
  destruct (Sum_spec (Md5.bytesOf
    (Strings.ToLower (Strings.TrimSpace (Title job)) ++ "|"
     ++ Strings.ToLower (Strings.TrimSpace (Company job)) ++ "|"
     ++ Strings.ToLower (Strings.TrimSpace (Location job)))%string)) as (Hlen & Hrange).
  destruct (hex_spec _ Hrange) as (H1 & H2).
  split; [rewrite H1, Hlen; reflexivity | exact H2].
Qed.

End HashMore.

Section NormalisationMore.
Import models dedup dedupSpec.














End NormalisationMore.

(** ** The source manager *)
Section SourceManagerMore.
Import models sources.

Lemma GetEnabledSources_lookup (sm : SourceManager) (name : string) :
  GetEnabledSources sm !! name
  = match sources.sources sm !! name, configs sm !! name with
    | Some source, Some config => if Enabled config then Some source else None
    | _, _ => None
    end.
Proof.
  unfold GetEnabledSources. rewrite map_lookup_imap.
  destruct (sources.sources sm !! name); simpl; [|reflexivity].
  by destruct (configs sm !! name).
Qed.

(** X13. After [RegisterSource source config], the configuration of the
    source's name is [config], the source is registered under its name,
    and it is enabled exactly when [config] says so, whatever was
    registered under that name before; the entries of every other name
    are as before; and registering the same source again changes
    nothing. *)
Theorem RegisterSource_then_lookup (sm : SourceManager) (source : JobSource)
  (config : JobSourceConfig) (name : string) :
  let sm' := RegisterSource sm source config in
  GetSourceConfig sm' (GetName source) = (config, true)
  /\ GetSources sm' !! GetName source = Some source
  /\ GetEnabledSources sm' !! GetName source = (if Enabled config then Some source else None)
  /\ (name <> GetName source ->
      GetSourceConfig sm' name = GetSourceConfig sm name
      /\ GetSources sm' !! name = GetSources sm !! name
      /\ GetEnabledSources sm' !! name = GetEnabledSources sm !! name)
  /\ RegisterSource sm' source config = sm'.
Proof.
  intros sm'. subst sm'. unfold GetSourceConfig, GetSources.
  rewrite !GetEnabledSources_lookup. unfold RegisterSource; simpl.
  rewrite !lookup_insert_eq.
  split; [reflexivity|]. split; [reflexivity|]. split; [reflexivity|]. split.
  - intros Hne. by rewrite !lookup_insert_ne by done.
  - by rewrite !insert_insert_eq.
Qed.

(** X14. A name is among the enabled sources exactly when a source is
    registered under it and its configuration is there and enabled; so
    the enabled sources are registered sources, and a manager without
    sources has none enabled. *)
Theorem GetEnabledSources_spec (sm : SourceManager) (name : string) (source : JobSource) :
  (GetEnabledSources sm !! name = Some source
   <-> GetSources sm !! name = Some source
       /\ exists config, configs sm !! name = Some config /\ Enabled config = true)
  /\ GetEnabledSources sm ⊆ GetSources sm
  /\ GetEnabledSources NewSourceManager = ∅.
Proof.
  split; [|split].
  - rewrite GetEnabledSources_lookup. unfold GetSources.
    destruct (sources.sources sm !! name) as [s|]; [|split; [discriminate | by intros [? _]]].
    destruct (configs sm !! name) as [c|].
    + destruct (Enabled c) eqn:He; split.
      * intros [= ->]. split; [done | by exists c].
      * by intros [[= ->] _].
      * discriminate.
      * intros [_ (c' & [= <-] & He')]. congruence.
    + split; [discriminate | by intros [_ (c' & ? & _)]].
  - apply map_subseteq_spec. intros n s Hn.
    rewrite GetEnabledSources_lookup in Hn. unfold GetSources.
    destruct (sources.sources sm !! n) as [s'|]; [|discriminate].
    destruct (configs sm !! n) as [c|]; [|discriminate].
    destruct (Enabled c); [congruence | discriminate].
  - apply map_eq. intros n. rewrite GetEnabledSources_lookup. simpl.
    by rewrite !lookup_empty.
Qed.

End SourceManagerMore.

(** ** The adapters *)
Section AdaptersMore.
Import models errors sources.

Lemma firstMapped_In (m : list (string * string)) (tags : list string) (v : string) :
  firstMapped m tags = Some v -> In v (map snd m).
Proof.
  induction tags as [|tag r IH]; [discriminate|]. simpl.
  destruct (assoc (Strings.ToLower tag) m) as [v'|] eqn:E; [|exact IH].
  intros [= <-]. clear IH. induction m as [|[k x] m IHm]; [discriminate|].
  simpl in *. destruct (String.eqb (Strings.ToLower tag) k).
  - left. by injection E.
  - right. by apply IHm.
Qed.

Lemma remoteok_getJobCategory_nonempty (tags : list string) :
  remoteok.getJobCategory tags <> "".
Proof.
  unfold remoteok.getJobCategory.
  destruct (firstMapped remoteok.categoryMap tags) as [c|] eqn:E1.
  - apply firstMapped_In in E1. simpl in E1.
    repeat (destruct E1 as [<-|E1]; [discriminate|]). destruct E1.
  - destruct (firstMapped remoteok.techMap tags) as [c|] eqn:E2; [|discriminate].
    apply firstMapped_In in E2. simpl in E2.
    repeat (destruct E2 as [<-|E2]; [discriminate|]). destruct E2.
Qed.

Lemma remoteok_getJobType_values (tags : list string) :
  In (remoteok.getJobType tags)
     [JobTypeFullTime; JobTypePartTime; JobTypeContract; "internship"].
Proof.
  unfold remoteok.getJobType.
  destruct (firstMapped remoteok.jobTypeMap tags) as [t|] eqn:E; [|by left].
  apply firstMapped_In in E. simpl in E. simpl.
  repeat (destruct E as [<-|E]; [tauto|]). destruct E.
Qed.

(** X15. The RemoteOK adapter skips the decoded items without id and
    makes one record for each other item, in order. Every record it makes
    has the source RemoteOK, a URL, a category and a posted date, a job
    type that is full-time, part-time, contract or internship (never
    freelance), and the title, company and location of its item. When the
    request, the status, the reading or the decoding fails, it returns no
    record and an error. *)
Theorem remoteok_FetchJobs_spec (response : fetched (list remoteok.RemoteOKJob)) :
  match response with
  | Parsed items =>
      (remoteok.FetchJobs response).2 = None
      /\ Forall2 (fun item job =>
           Title job = remoteok.Position item
           /\ Company job = remoteok.Company item
           /\ Location job = remoteok.Location item
           /\ Source job = "RemoteOK"
           /\ URL job <> ""
           /\ JobCategory job <> ""
           /\ PostedDate job = Some (remoteok.Date item)
           /\ In (JobType job)
                 [JobTypeFullTime; JobTypePartTime; JobTypeContract; "internship"])
         (List.filter (fun item => negb (String.eqb (remoteok.ID item) "")) items)
         (remoteok.FetchJobs response).1
  | _ => (remoteok.FetchJobs response).1 = [] /\ (remoteok.FetchJobs response).2 <> None
  end.
Proof.
  destruct response as [e|c|e|e|items]; simpl; try (split; [reflexivity | discriminate]).
  split; [reflexivity|].
  induction items as [|item rest IH]; [constructor|].
  cbn [omap list_omap List.filter].
  fold (@omap list _ remoteok.RemoteOKJob Job).
  unfold remoteok.convert at 1.
  destruct (String.eqb (remoteok.ID item) ""); simpl; [exact IH|].
  constructor; [|exact IH].
  destruct (String.eqb (remoteok.URL item) "") eqn:Hurl; simpl;
    repeat split; try discriminate;
    try apply remoteok_getJobCategory_nonempty; try apply remoteok_getJobType_values.
  by apply String.eqb_neq.
Qed.

Lemma remotive_getJobType_values (jobType : string) :
  In (remotive.getJobType jobType)
     [JobTypeFullTime; JobTypePartTime; JobTypeContract; JobTypeFreelance].
Proof.
  unfold remotive.getJobType. simpl.
  repeat (match goal with |- context [if ?b then _ else _] => destruct b end; simpl; auto 6).
Qed.

(** X16. The Remotive adapter makes one record for every decoded item,
    in order, and skips none. Every record has the title and the company
    of its item, the source Remotive, a location (Remote when the item
    has none), a description, a salary and a category that are not empty,
    one of the four job types of the model, and a posted date exactly when
    the item has a publication date. When the request, the status, the
    reading or the decoding fails, it returns no record and an error. *)
Theorem remotive_FetchJobs_spec (timeParse : string -> string -> option Time)
  (timeNow : Time) (response : fetched (list remotive.RemotiveJob)) :
  match response with
  | Parsed items =>
      (remotive.FetchJobs timeParse timeNow response).2 = None
      /\ Forall2 (fun item job =>
           Title job = remotive.Title item
           /\ Company job = remotive.CompanyName item
           /\ Source job = "Remotive"
           /\ Location job <> ""
           /\ (remotive.CandidateRequiredLocation item <> "" ->
               Location job = remotive.CandidateRequiredLocation item)
           /\ Description job <> "" /\ Salary job <> "" /\ JobCategory job <> ""
           /\ In (JobType job)
                 [JobTypeFullTime; JobTypePartTime; JobTypeContract; JobTypeFreelance]
           /\ (PostedDate job = None <-> remotive.PublicationDate item = ""))
         items (remotive.FetchJobs timeParse timeNow response).1
  | _ => (remotive.FetchJobs timeParse timeNow response).1 = []
         /\ (remotive.FetchJobs timeParse timeNow response).2 <> None
  end.
Proof.
  destruct response as [e|c|e|e|items]; simpl; try (split; [reflexivity | discriminate]).
  split; [reflexivity|].
  induction items as [|item rest IH]; [constructor|].
  simpl. constructor; [|exact IH].
  destruct (remotive_placeholders timeParse timeNow item) as (Hd & Hs & Hc).
  unfold remotive.convert in *; cbn [Title Company Source Location Description Salary
    JobCategory JobType PostedDate] in *.
  split; [reflexivity|]. split; [reflexivity|]. split; [reflexivity|].
  split; [|split; [|split; [exact Hd|split; [exact Hs|split; [exact Hc|split]]]]].
  - destruct (String.eqb_spec (remotive.CandidateRequiredLocation item) "");
      [discriminate | assumption].
  - intros Hne. by destruct (String.eqb_spec (remotive.CandidateRequiredLocation item) "").
  - apply remotive_getJobType_values.
  - destruct (String.eqb_spec (remotive.PublicationDate item) "") as [->|Hne]; simpl.
    + split; reflexivity.
    + split; [|contradiction].
      match goal with |- match ?x with _ => _ end = None -> _ => destruct x end;
        discriminate.
Qed.

End AdaptersMore.

Section CategoryMore.
Import models sources dedupSpec.








End CategoryMore.

(** ** The rate limiter: the rate, the registry and [Stop] *)
Section RateLimiterMore.
Import ratelimit.
Local Open Scope Z_scope.

(** X18. A limiter made with capacity [N] lets through, in any run, at
    most [N] receives plus one for every full refill interval [60s / N]
    that has passed since it was made. *)
Theorem limiter_rate_bound (now N : Z) (sl0 sl : sourceLimiter) (es : list event)
  (Hnew : newLimiter now N = Some sl0) (Hrun : exec sl0 es = Some sl) :
  acquisitions es <= N + (clock sl - now) / (Minute / N)
  /\ acquisitions es <= N + delivered (refill sl)
  /\ now <= clock sl.
Proof.
  destruct (newLimiter_spec _ _ _ Hnew) as (Ht0 & Hl0 & Hc0 & Hs0 & Hd0 & Hp0 & HN & Hinv0).
  destruct (exec_spec _ _ _ Hrun Hinv0) as (Hinv & Hl & Hp & Hs & Hc & Hd & Ht).
  destruct Hinv as (Htok & Hper & Hdel & Hclk).
  rewrite Hs, Hp, Hs0, Hp0 in Hclk. rewrite Hp, Hp0 in Hper.
  assert (Hticks : delivered (refill sl) <= (clock sl - now) / (Minute / N)).
  { apply Z.div_le_lower_bound; [exact Hper | lia]. }
  repeat split; lia.
Qed.

(** The theorem for a limiter of 60 requests per minute after ninety
    seconds in which every token and every tick was used: 150 receives. *)
Lemma limiter_of_60_after_90s :
  let sl0 := {| tokens := 60;
                refill := {| period := 1000000000; started := 0; delivered := 0;
                             stopped := false |};
                limit := 60; duration := Minute; clock := 0 |} in
  let es := repeat Acquire 60
            ++ concat (repeat [Elapse 1000000000; Tick; Acquire] 90) in
  acquisitions es = 150 /\ acquisitions es <= 60 + (90000000000 - 0) / (Minute / 60).
Proof.
  intros sl0 es.
  assert (Hrun : exists sl, exec sl0 es = Some sl /\ clock sl = 90000000000).
  { eexists. split; vm_compute; reflexivity. }
  destruct Hrun as (sl & Hrun & Hclock).
  split; [vm_compute; reflexivity|].
  destruct (limiter_rate_bound 0 60 sl0 sl es eq_refl Hrun) as (H & _).
  rewrite Hclock in H. exact H.
Defined.

(** X19. [getLimiter] gives a limiter with the requested limit and puts
    it under the source's name, leaving the limiters of all other sources
    as they are. A limiter with the requested limit that is there is
    given back as it is, with the tokens it has left; otherwise a new and
    full one is made. The creation fails, and the call with it, exactly
    when the limit is not positive or exceeds the 60 000 000 000
    nanoseconds of a minute. *)
Theorem getLimiter_spec (rl : RateLimiter) (now : Z) (source : string) (n : Z) :
  match getLimiter rl now source n with
  | Some (rl', sl) =>
      limit sl = n
      /\ rl' !! source = Some sl
      /\ (forall other, other <> source -> rl' !! other = rl !! other)
      /\ match rl !! source with
         | Some old =>
             if limit old =? n then sl = old /\ rl' = rl
             else tokens sl = n /\ clock sl = now /\ delivered (refill sl) = 0
                  /\ 0 < n <= Minute
         | None => tokens sl = n /\ clock sl = now /\ delivered (refill sl) = 0
                   /\ 0 < n <= Minute
         end
  | None =>
      (n <= 0 \/ Minute < n)
      /\ (forall old, rl !! source = Some old -> limit old <> n)
  end.
Proof.
  assert (Hnew : match newLimiter now n with
                 | Some sl => limit sl = n /\ tokens sl = n /\ clock sl = now
                              /\ delivered (refill sl) = 0 /\ 0 < n <= Minute
                 | None => n <= 0 \/ Minute < n
                 end).
  { destruct (newLimiter now n) as [sl|] eqn:E.
    - destruct (newLimiter_spec _ _ _ E) as (? & ? & ? & ? & ? & _).
      assert (0 < n <= Minute); [|tauto].
      unfold newLimiter in E. destruct (Z.leb_spec n 0); [discriminate|].
      destruct (Z.leb_spec (Minute / n) 0) as [|Hp]; [discriminate|].
      split; [lia|]. destruct (Z.le_gt_cases n Minute) as [|Hgt]; [done|].
      rewrite Z.div_small in Hp; [lia|]. unfold Minute in *. lia.
    - unfold newLimiter in E. destruct (Z.leb_spec n 0); [by left|].
      destruct (Z.leb_spec (Minute / n) 0) as [Hle|]; [|discriminate].
      right. destruct (Z.lt_ge_cases Minute n) as [|Hge]; [done|].
      exfalso. assert (1 <= Minute / n) by (apply Z.div_le_lower_bound; lia). lia. }
  unfold getLimiter, RateLimiter in *.
  destruct (rl !! source) as [old|] eqn:Hold.
  - destruct (Z.eqb_spec (limit old) n) as [Heq|Hne].
    + repeat split; done.
    + destruct (newLimiter now n) as [fresh|].
      * destruct Hnew as (? & ? & ? & ? & ?).
        split; [done|]. split; [apply lookup_insert_eq|].
        split; [|done]. intros other Ho. by rewrite lookup_insert_ne.
      * split; [exact Hnew|]. by intros old' [= <-].
  - destruct (newLimiter now n) as [fresh|].
    + destruct Hnew as (? & ? & ? & ? & ?).
      split; [done|]. split; [apply lookup_insert_eq|].
      split; [|done]. intros other Ho. by rewrite lookup_insert_ne.
    + split; [exact Hnew|]. discriminate.
Qed.




End RateLimiterMore.

(** ** The task of a source: retries *)
Section RetryMore.
Import models errors sources dedup scraper scraperSpec.
Local Open Scope Z_scope.

(** While the attempts fail and no wait is cancelled, the loop goes on to
    the next attempt, with what the last attempt returned. *)
Lemma attempts_skip_failures (rc : RetryConfig) (env : Env) (name : string) (k : Z)
  (Hfail : failsBefore rc env name k) :
  forall (n fuel : nat) (a : Z) (jobs : list Job) (lastError : option error),
    0 <= a -> k - a = Z.of_nat n -> (n <= fuel)%nat ->
    attempts rc env name fuel a jobs lastError
    = attempts rc env name (fuel - n) k
        (if (n =? 0)%nat then jobs else (fetch env name (k - 1)).1)
        (if (n =? 0)%nat then lastError else (fetch env name (k - 1)).2).
Proof.
  destruct Hfail as (Hf & Hc).
  induction n as [|n IH]; intros fuel a jobs lastError Ha Hk Hfuel.
  - replace a with k by lia. by rewrite Nat.sub_0_r.
  - destruct fuel as [|fuel]; [lia|]. cbn [attempts].
    assert (Hnc : (if 0 <? a
                   then backoffErr env name a (calculateBackoffDelay rc a)
                   else None) = None).
    { destruct (Z.ltb_spec 0 a); [apply Hc; lia | reflexivity]. }
    rewrite Hnc.
    specialize (Hf a ltac:(lia)).
    destruct (fetch env name a) as [j e] eqn:Hfa. simpl in Hf.
    destruct e as [e|]; [|contradiction].
    rewrite (IH fuel (a + 1) j (Some e)) by lia.
    cbn [Nat.sub Nat.eqb].
    destruct n as [|n']; [|reflexivity].
    replace (k - 1) with a by lia. by rewrite Hfa.
Qed.

(** X21. When the rate limiter lets the task through, the attempts
    before attempt [k] fail without a cancelled wait, and attempt
    [k <= MaxRetries] succeeds after a wait that is not cancelled, the
    result of the task is the batch of attempt [k], without error, and the
    scraper is left as it was: no error is counted for the failures that
    a retry made good. *)
Theorem scrapeSource_returns_first_success (ps : PowerScraper) (env : Env)
  (name : string) (k : Z) (jobs : list Job)
  (Hwait : admitted ps env name)
  (Hk : 0 <= k <= MaxRetries (retryConfig ps))
  (Hfail : failsBefore (retryConfig ps) env name k)
  (Hgo : 1 <= k ->
         backoffErr env name k (calculateBackoffDelay (retryConfig ps) k) = None)
  (Hok : fetch env name k = (jobs, None)) :
  scrapeSource ps env name
  = (ps, {| Source := name; Jobs := jobs; Error := None; Duration := elapsed env name |}).
Proof.
  unfold scrapeSource. unfold admitted in Hwait.
  destruct (GetSourceConfig (sourceManager ps) name) as [config found].
  cbn [fst] in Hwait. rewrite Hwait.
  rewrite (attempts_skip_failures _ _ _ k Hfail (Z.to_nat k)) by lia.
  destruct (Z.to_nat (MaxRetries (retryConfig ps) + 1) - Z.to_nat k)%nat
    as [|fuel] eqn:Hfuel; [lia|].
  cbn [attempts].
  assert (Hnc : (if 0 <? k
                 then backoffErr env name k (calculateBackoffDelay (retryConfig ps) k)
                 else None) = None).
  { destruct (Z.ltb_spec 0 k); [apply Hgo; lia | reflexivity]. }
  rewrite Hnc, Hok. reflexivity.
Qed.

(** The theorem at a source that fails twice and answers at its third
    attempt. *)
Lemma third_attempt_succeeds :
  let env := {| order := ["RemoteOK"%string];
                waitErr := fun _ _ => None;
                backoffErr := fun _ _ _ => None;
                fetch := fun _ attempt =>
                  if attempt <? 2 then ([], Some (External "timeout"))
                  else ([examples.jobA], None);
                elapsed := fun _ => 6000000000;
                collectedAt := fun _ => 0;
                saveCtxErr := fun _ => None;
                cycleDuration := 0 |} in
  scrapeSource examples.ps0 env "RemoteOK"
  = (examples.ps0, {| Source := "RemoteOK"; Jobs := [examples.jobA]; Error := None;
                      Duration := 6000000000 |}).
Proof.
  intros env.
  apply (scrapeSource_returns_first_success examples.ps0 env "RemoteOK" 2 [examples.jobA]).
  - reflexivity.
  - vm_compute. split; discriminate.
  - split.
    + intros i Hi. simpl. destruct (Z.ltb_spec i 2); [discriminate | lia].
    + intros i Hi. reflexivity.
  - reflexivity.
  - reflexivity.
Defined.

(** X22. When the rate limiter lets the task through and every attempt
    from 0 to [MaxRetries >= 0] fails without a cancelled wait, the result
    carries what the last attempt returned, its error included, and the
    error counter of the source is raised by one; nothing else of the
    scraper changes. *)
Theorem scrapeSource_exhausts_retries (ps : PowerScraper) (env : Env) (name : string)
  (Hwait : admitted ps env name)
  (Hmax : 0 <= MaxRetries (retryConfig ps))
  (Hfail : failsBefore (retryConfig ps) env name (MaxRetries (retryConfig ps) + 1)) :
  scrapeSource ps env name
  = (withMetrics ps (countSourceError (metrics ps) name),
     {| Source := name;
        Jobs := (fetch env name (MaxRetries (retryConfig ps))).1;
        Error := (fetch env name (MaxRetries (retryConfig ps))).2;
        Duration := elapsed env name |})
  /\ (fetch env name (MaxRetries (retryConfig ps))).2 <> None
  /\ retriesExhausted ps env name = true.
Proof.
  assert (Hlast : (fetch env name (MaxRetries (retryConfig ps))).2 <> None).
  { apply (proj1 Hfail). lia. }
  unfold scrapeSource, retriesExhausted. unfold admitted in Hwait.
  destruct (GetSourceConfig (sourceManager ps) name) as [config found].
  cbn [fst] in *. rewrite Hwait.
  rewrite (attempts_skip_failures _ _ _ (MaxRetries (retryConfig ps) + 1) Hfail
             (Z.to_nat (MaxRetries (retryConfig ps) + 1))) by lia.
  rewrite Nat.sub_diag. cbn [attempts].
  replace (Z.to_nat (MaxRetries (retryConfig ps) + 1) =? 0)%nat with false
    by (symmetry; apply Nat.eqb_neq; lia).
  replace (MaxRetries (retryConfig ps) + 1 - 1) with (MaxRetries (retryConfig ps)) by lia.
  destruct ((fetch env name (MaxRetries (retryConfig ps))).2) as [e|]; [|contradiction].
  repeat split. discriminate.
Qed.

(** The theorem at the cycle of the example in which Remotive is down:
    four attempts, and one error counted for Remotive. *)
Lemma remotive_down_exhausts_retries :
  Errors (sourceMetricOf (metrics (scrapeSource examples.ps0 examples.remotiveDown
                                     "Remotive").1) "Remotive") = 1
  /\ retriesExhausted examples.ps0 examples.remotiveDown "Remotive" = true.
Proof.
  destruct (scrapeSource_exhausts_retries examples.ps0 examples.remotiveDown "Remotive")
    as (H1 & _ & H3).
  - reflexivity.
  - vm_compute. discriminate.
  - split; intros i Hi; [simpl; discriminate | reflexivity].
  - split; [|exact H3]. rewrite H1. vm_compute. reflexivity.
Defined.

(** X23. When the attempts before attempt [k >= 1] fail and the wait
    before attempt [k] is cancelled, the task stops there: its result
    carries the error of the context, not that of the last attempt, and
    no record; the error counter of the source is not raised. *)
Theorem scrapeSource_cancelled_while_waiting (ps : PowerScraper) (env : Env)
  (name : string) (k : Z) (ctxErr : error)
  (Hwait : admitted ps env name)
  (Hk : 1 <= k <= MaxRetries (retryConfig ps))
  (Hfail : failsBefore (retryConfig ps) env name k)
  (Hcancel : backoffErr env name k (calculateBackoffDelay (retryConfig ps) k)
             = Some ctxErr) :
  scrapeSource ps env name
  = (ps, {| Source := name; Jobs := []; Error := Some ctxErr;
            Duration := elapsed env name |})
  /\ retriesExhausted ps env name = false.
Proof.
  unfold scrapeSource, retriesExhausted. unfold admitted in Hwait.
  destruct (GetSourceConfig (sourceManager ps) name) as [config found].
  cbn [fst] in *. rewrite Hwait.
  rewrite (attempts_skip_failures _ _ _ k Hfail (Z.to_nat k)) by lia.
  destruct (Z.to_nat (MaxRetries (retryConfig ps) + 1) - Z.to_nat k)%nat
    as [|fuel] eqn:Hfuel; [lia|].
  cbn [attempts].
  destruct (Z.ltb_spec 0 k); [|lia]. rewrite Hcancel. by split.
Qed.

(** The theorem at a source that fails once, the context being cancelled
    during the wait for the second attempt. *)
Lemma cancelled_before_second_attempt :
  let env := {| order := ["RemoteOK"%string];
                waitErr := fun _ _ => None;
                backoffErr := fun _ _ _ => Some Canceled;
                fetch := fun _ _ => ([], Some (External "timeout"));
                elapsed := fun _ => 1500000000;
                collectedAt := fun _ => 0;
                saveCtxErr := fun _ => None;
                cycleDuration := 0 |} in
  (scrapeSource examples.ps0 env "RemoteOK").2
  = {| Source := "RemoteOK"; Jobs := []; Error := Some Canceled; Duration := 1500000000 |}.
Proof.
  intros env.
  destruct (scrapeSource_cancelled_while_waiting examples.ps0 env "RemoteOK" 1 Canceled)
    as (H & _).
  - reflexivity.
  - vm_compute. split; discriminate.
  - split; intros i Hi; [simpl; discriminate | lia].
  - reflexivity.
  - by rewrite H.
Defined.

End RetryMore.

(** ** Saving: batches, fallback and cancellation *)
Section SavingMore.
Import models errors sources dedup scraper scraperSpec.
Context {St : Type} (store : Store St).

Lemma batchesOf_shape (fuel : nat) :
  forall jobs : list Job,
    (length jobs <= fuel)%nat ->
    Forall (fun b => (0 < length b <= batchSize)%nat) (batchesOf fuel jobs)
    /\ (length jobs <= batchSize * length (batchesOf fuel jobs) < length jobs + batchSize)%nat.
Proof.
  unfold batchSize.
  induction fuel as [|fuel IH]; intros jobs Hlen.
  - destruct jobs; [|simpl in Hlen; lia]. simpl. split; [constructor | lia].
  - destruct jobs as [|job rest]; [simpl; split; [constructor | lia]|].
    change (batchesOf (S fuel) (job :: rest))
      with (firstn batchSize (job :: rest) :: batchesOf fuel (skipn batchSize (job :: rest))).
    unfold batchSize.
    destruct (IH (skipn 50 (job :: rest))) as (I1 & I2).
    { rewrite length_skipn. simpl in *. lia. }
    rewrite length_skipn in I2. split.
    + constructor; [|exact I1]. rewrite length_firstn. simpl length. lia.
    + simpl length in *. lia.
Qed.

Lemma batchCalls_saveEach (batch : list Job) :
  forall st : St,
    batchCalls (saveEach store batch st).2 = []
    /\ (saveEach store batch st).2 = map SaveJobCall batch.
Proof.
  induction batch as [|job rest IH]; intros st; simpl; [by split|].
  destruct (SaveJob store job st) as [e st1].
  destruct (IH st1) as (I1 & I2). destruct (saveEach store rest st1) as [st2 log].
  simpl in *. split; [exact I1 | by rewrite I2].
Qed.

Lemma batchCalls_app (l1 l2 : list call) :
  batchCalls (l1 ++ l2) = batchCalls l1 ++ batchCalls l2.
Proof. unfold batchCalls. apply omap_app. Qed.

Lemma saveBatches_batchCalls (env : Env) (batches : list (list Job)) :
  forall (i : nat) (st : St),
    batchCalls (saveBatches store env i batches st).2
    = firstn (batchesWritten env i (length batches)) batches.
Proof.
  induction batches as [|batch rest IH]; intros i st; [reflexivity|].
  cbn [saveBatches length batchesWritten].
  destruct (SaveJobs store batch st) as [err st1].
  assert (Hlog : batchCalls
    (match err with Some _ => saveEach store batch st1 | None => (st1, []) end).2 = []).
  { destruct err; [apply batchCalls_saveEach | reflexivity]. }
  destruct (match err with Some _ => saveEach store batch st1 | None => (st1, []) end)
    as [st2 log]. cbn [snd] in Hlog.
  destruct (saveCtxErr env i) as [ctxErr|].
  - cbn [snd firstn]. change (SaveJobsCall batch :: log) with ([SaveJobsCall batch] ++ log).
    rewrite batchCalls_app, Hlog. reflexivity.
  - specialize (IH (S i) st2).
    destruct (saveBatches store env (S i) rest st2) as [[r st3] log'].
    cbn [snd firstn] in *.
    change (SaveJobsCall batch :: log ++ log') with ([SaveJobsCall batch] ++ log ++ log').
    rewrite !batchCalls_app, Hlog, IH. reflexivity.
Qed.

Lemma batchesWritten_all (env : Env) (n : nat) :
  forall i : nat, firstCtxErr env i n = None -> batchesWritten env i n = n.
Proof.
  induction n as [|n IH]; intros i; [reflexivity|]. simpl.
  destruct (saveCtxErr env i); [discriminate|]. intros H. by rewrite IH.
Qed.

(** X24. [saveJobs] cuts the records into consecutive batches of at most
    50, none of them empty, that put end to end are the records: for [n]
    records there are [n / 50] batches, rounded up. It hands the batches
    to [SaveJobs] in order, once each, and stops after the first batch
    whose check finds the context cancelled; when it returns no error,
    every batch was handed over. *)
Theorem saveJobs_writes_batches_in_order (env : Env) (jobs : list Job) (st : St) :
  let batches := batchesOf (length jobs) jobs in
  let r := saveJobs store env jobs st in
  concat batches = jobs
  /\ Forall (fun b => (0 < length b <= 50)%nat) batches
  /\ (length jobs <= 50 * length batches < length jobs + 50)%nat
  /\ batchCalls r.2 = firstn (batchesWritten env 0 (length batches)) batches
  /\ (r.1.1 = None -> batchCalls r.2 = batches)
  /\ (jobs = [] -> r = (None, st, [])).
Proof.
  intros batches r. subst batches r.
  destruct (batchesOf_shape (length jobs) jobs (le_n _)) as (S1 & S2).
  split; [by apply batchesOf_concat|]. split; [exact S1|]. split; [exact S2|].
  unfold saveJobs. rewrite saveBatches_batchCalls. split; [reflexivity|]. split.
  - rewrite saveBatches_returned. intros Hnone.
    rewrite batchesWritten_all by exact Hnone. apply firstn_all.
  - intros ->. reflexivity.
Qed.

(** X25. When the storage accepts every batch, [saveJobs] makes no other
    call than the batch calls: no record is ever saved on its own. *)
Theorem saveJobs_accepted_batches_only (env : Env) (jobs : list Job) (st : St)
  (Haccept : acceptsBatches store) :
  let batches := batchesOf (length jobs) jobs in
  (saveJobs store env jobs st).2
  = map SaveJobsCall (firstn (batchesWritten env 0 (length batches)) batches)
  /\ singleCalls (saveJobs store env jobs st).2 = [].
Proof.
  intros batches. subst batches. unfold saveJobs.
  assert (Hgen : forall bs i st,
    (saveBatches store env i bs st).2
    = map SaveJobsCall (firstn (batchesWritten env i (length bs)) bs)).
  { induction bs as [|batch rest IH]; intros i st0; [reflexivity|].
    cbn [saveBatches length batchesWritten].
    pose proof (Haccept batch st0) as Ha.
    destruct (SaveJobs store batch st0) as [err st1]. simpl in Ha. subst err.
    destruct (saveCtxErr env i); [reflexivity|].
    specialize (IH (S i) st1).
    destruct (saveBatches store env (S i) rest st1) as [[r st3] log'].
    cbn [snd firstn map app] in *. by rewrite IH. }
  rewrite Hgen. split; [reflexivity|].
  unfold singleCalls.
  induction (firstn _ _) as [|b l IHl]; [reflexivity|]. exact IHl.
Qed.


End SavingMore.

Section SavingWitnesses.
Import models errors sources dedup scraper scraperSpec examples.

(** The two theorems at the storages of the examples and two records. *)
Lemma accepted_batch_is_one_call :
  (saveJobs acceptAll firstCycle [jobA; jobB] tt).2 = [SaveJobsCall [jobA; jobB]].
Proof.
  destruct (saveJobs_accepted_batches_only acceptAll firstCycle [jobA; jobB] tt) as (H & _).
  - intros batch st. reflexivity.
  - rewrite H. reflexivity.
Defined.


End SavingWitnesses.

(** ** The cycle: sources, kept records and the saved counter *)
Section CycleMore.
Import models errors sources dedup scraper scraperSpec.
Local Open Scope Z_scope.

(** X27. After [InitializeSources], whatever the scraper held before,
    RemoteOK and Remotive are registered and enabled, with the rate
    limits 60 and 100 per minute their adapters declare; the sources of
    other names are as before; and a cycle never fails for want of an
    enabled source: it returns no error, or the cancellation seen while
    saving. *)
Theorem InitializeSources_enables_both_adapters {St : Type} (store : Store St)
  (ps : PowerScraper) (env : Env) (st : St) (name : string) :
  let ps' := InitializeSources ps in
  GetEnabledSources (sourceManager ps') !! "RemoteOK" = Some remoteok.this
  /\ GetEnabledSources (sourceManager ps') !! "Remotive" = Some remotive.this
  /\ RateLimit (GetSourceConfig (sourceManager ps') "RemoteOK").1 = 60
  /\ RateLimit (GetSourceConfig (sourceManager ps') "Remotive").1 = 100
  /\ (name <> "RemoteOK" -> name <> "Remotive" ->
      GetEnabledSources (sourceManager ps') !! name
      = GetEnabledSources (sourceManager ps) !! name)
  /\ returned (ScrapeAllSources store ps' env st)
     = match firstCtxErr env 0
               (length (batchesOf (length (collectAll ps' env).2) (collectAll ps' env).2)) with
       | Some ctxErr => Some (Wrapf "failed to save jobs: %w" ctxErr)
       | None => None
       end.
Proof.
  intros ps'.
  assert (H1 : GetEnabledSources (sourceManager ps') !! "RemoteOK" = Some remoteok.this).
  { rewrite GetEnabledSources_lookup. subst ps'.
    unfold InitializeSources, RegisterSource; simpl.
    rewrite !(lookup_insert_ne _ "Remotive" "RemoteOK") by done.
    by rewrite !lookup_insert_eq. }
  split; [exact H1|]. split.
  { rewrite GetEnabledSources_lookup. subst ps'.
    unfold InitializeSources, RegisterSource; simpl. by rewrite !lookup_insert_eq. }
  split.
  { subst ps'. unfold GetSourceConfig, InitializeSources, RegisterSource; simpl.
    rewrite (lookup_insert_ne _ "Remotive" "RemoteOK") by done.
    by rewrite lookup_insert_eq. }
  split.
  { subst ps'. unfold GetSourceConfig, InitializeSources, RegisterSource; simpl.
    by rewrite lookup_insert_eq. }
  split.
  - intros Hn1 Hn2. rewrite !GetEnabledSources_lookup. subst ps'.
    unfold InitializeSources, RegisterSource; simpl.
    by rewrite !lookup_insert_ne by done.
  - rewrite ScrapeAllSources_returned.
    destruct (size (GetEnabledSources (sourceManager ps')) =? 0)%nat eqn:Hsize;
      [|reflexivity].
    apply Nat.eqb_eq, map_size_empty_iff in Hsize.
    rewrite Hsize, lookup_empty in H1. discriminate.
Qed.

(** X28. The records a cycle keeps come, in their order, from the batches
    of the results without error; no two of them have the same key; none
    has a key the deduplicator had seen before the cycle; and all their
    keys are seen after it. *)
Theorem cycle_keeps_new_records_once (ps : PowerScraper) (env : Env) :
  let kept := (collectAll ps env).2 in
  let arrived := concat (fetchedBatches (results ps env)) in
  sublist kept arrived
  /\ NoDup (map generateJobHash kept)
  /\ (forall j, In j kept -> IsDuplicate (deduplicator ps) j = false)
  /\ (forall j, In j arrived -> IsDuplicate (deduplicator (collectAll ps env).1) j = true)
  /\ (length kept <= length arrived)%nat.
Proof.
  intros kept arrived. subst kept arrived.
  destruct (collectAll_dedup ps env) as (Hd & Hk). rewrite Hd, Hk.
  destruct (RemoveDuplicates_kept_shape
              (concat (fetchedBatches (results ps env))) (deduplicator ps))
    as (Hsub & Hnd & Hnew).
  split; [exact Hsub|]. split; [exact Hnd|]. split; [exact Hnew|]. split.
  - intros j Hj. unfold IsDuplicate. rewrite RemoveDuplicates_seen.
    rewrite (existsb_hasKey_In _ _ j Hj eq_refl). apply orb_true_r.
  - by apply sublist_length.
Qed.

(** X29. [TotalJobsSaved] after a cycle: when the cycle kept at least one
    record and returns no error, it is the number of records the cycle
    kept, whatever the storage answered to the writes; in every other case
    it is what it was before the cycle. *)
Theorem TotalJobsSaved_after_cycle {St : Type} (store : Store St)
  (ps : PowerScraper) (env : Env) (st : St) :
  let o := ScrapeAllSources store ps env st in
  let kept := (collectAll ps env).2 in
  TotalJobsSaved (metrics (scraper o))
  = match returned o, kept with
    | None, _ :: _ => Z.of_nat (length kept)
    | _, _ => TotalJobsSaved (metrics ps)
    end.
Proof.
  intros o kept. subst o kept.
  pose proof (runTasks_spec env (GetEnabledSources (sourceManager ps)) (order env) ps [])
    as (_ & _ & R3 & _).
  fold (collectAll ps env) in R3.
  unfold ScrapeAllSources.
  destruct (size (GetEnabledSources (sourceManager ps)) =? 0)%nat; [reflexivity|].
  destruct (collectAll ps env) as [ps1 allJobs]. cbn [fst snd] in *.
  destruct allJobs as [|job rest]; [simpl; exact R3|].
  cbn [length Nat.ltb Nat.leb].
  destruct (saveJobs store env (job :: rest) st) as [[r st'] log].
  destruct r; simpl; [exact R3 | reflexivity].
Qed.

End CycleMore.

(** ** The configuration *)
Section ConfigMore.
Import errors config.
Local Open Scope Z_scope.

(** X30. [Validate] accepts a configuration exactly when the Supabase URL
    and key are not empty, the number of concurrent sources and the batch
    size are positive, the retry attempts are not negative and one of the
    three sources is enabled; a missing URL is reported before anything
    else. The default configuration, which [LoadConfig] returns when
    there is no file, is accepted exactly when the environment gives both
    SUPABASE_URL and SUPABASE_KEY. *)
Theorem Validate_spec (c : Config) (getenv : string -> string) :
  (Validate c = None
   <-> SupabaseURL (Database c) <> "" /\ SupabaseKey (Database c) <> ""
       /\ 0 < ConcurrentSources (Scraper c) /\ 0 < BatchSize (Scraper c)
       /\ 0 <= RetryAttempts (Scraper c)
       /\ (Enabled (RemoteOK (Sources c)) = true
           \/ Enabled (Remotive (Sources c)) = true
           \/ Enabled (WeWorkRemotely (Sources c)) = true))
  /\ (SupabaseURL (Database c) = "" ->
      Validate c = Some (Errorf "supabase URL is required"))
  /\ LoadConfig getenv NotExist = (Some (DefaultConfig getenv), None)
  /\ (Validate (DefaultConfig getenv) = None
      <-> getenv "SUPABASE_URL" <> "" /\ getenv "SUPABASE_KEY" <> "").
Proof.
  assert (Hiff : forall c, Validate c = None
   <-> SupabaseURL (Database c) <> "" /\ SupabaseKey (Database c) <> ""
       /\ 0 < ConcurrentSources (Scraper c) /\ 0 < BatchSize (Scraper c)
       /\ 0 <= RetryAttempts (Scraper c)
       /\ (Enabled (RemoteOK (Sources c)) = true
           \/ Enabled (Remotive (Sources c)) = true
           \/ Enabled (WeWorkRemotely (Sources c)) = true)).
  { clear c. intros c. unfold Validate.
    destruct (String.eqb_spec (SupabaseURL (Database c)) "") as [Hu|Hu];
      [split; [discriminate | intros (? & _); contradiction]|].
    destruct (String.eqb_spec (SupabaseKey (Database c)) "") as [Hk|Hk];
      [split; [discriminate | intros (_ & ? & _); contradiction]|].
    destruct (Z.leb_spec (ConcurrentSources (Scraper c)) 0);
      [split; [discriminate | intros (_ & _ & ? & _); lia]|].
    destruct (Z.leb_spec (BatchSize (Scraper c)) 0);
      [split; [discriminate | intros (_ & _ & _ & ? & _); lia]|].
    destruct (Z.ltb_spec (RetryAttempts (Scraper c)) 0);
      [split; [discriminate | intros (_ & _ & _ & _ & ? & _); lia]|].
    destruct (Enabled (RemoteOK (Sources c))), (Enabled (Remotive (Sources c))),
      (Enabled (WeWorkRemotely (Sources c))); simpl;
      (split; [intros H'; try discriminate; repeat split; auto; lia|]);
      try reflexivity.
    intros (_ & _ & _ & _ & _ & [?|[?|?]]); discriminate. }
  split; [apply Hiff|]. split; [|split; [reflexivity|]].
  - intros Hu. unfold Validate. by rewrite Hu.
  - rewrite Hiff. simpl. split; [tauto|].
    intros [? ?]. repeat split; try done. by left.
Qed.

End ConfigMore.
